(** * GestureArt: the per-frame application loop, the canvas engine
      and the gesture recognizer

    [src/main.py] holds the orchestration loop [GestureArtApp.run]; it
    is embedded here statement by statement.  The modules it imports
    ([canvas_engine], [gesture_recognition], [hand_tracking], [ui]) are
    not part of the sources at hand: the canvas engine and the
    recognizer are modelled from the specification, the tracker, the UI
    and OpenCV are fed to the loop as per-frame observations, and the
    built-ins of Python the loop calls are parameters. *)

From Stdlib Require Import ZArith QArith Lia Ascii String.
From stdpp Require Import base option list strings gmap.

Local Open Scope Z_scope.

(** ** Python values and built-ins used by the loop *)

Definition Point : Type := Z * Z.
Definition Color : Type := Z * Z * Z.

(** The values carried by the interaction dictionaries of the UI. *)
Inductive PyVal :=
| VNone
| VBool (b : bool)
| VInt (n : Z)
| VFloat (f : Q)
| VStr (s : string)
| VColor (c : Color).

Inductive PyExn :=
| IndexError
| KeyError (key : string)
| ValueError
| TypeError
| OverflowError.

(** [bool(v)]: the truth value Python gives to [v]. *)
Definition truthy (v : PyVal) : bool :=
  match v with
  | VNone => false
  | VBool b => b
  | VInt n => negb (n =? 0)
  | VFloat f => negb (Qeq_bool f 0)
  | VStr s => negb (String.eqb s "")
  | VColor _ => true
  end.

(** Python's own [str.upper()], [int(v)], [float(v)] and the [str(v)]
    of an f-string field are no code of the repository: they are
    parameters.  [inl] is the exception a conversion raises;
    [str_raises] is the exception [str(v)] raises, if it raises one
    (the text it gives is not needed). *)
Class PyBuiltins := {
  upper : string -> string;
  py_int : PyVal -> PyExn + Z;
  py_float : PyVal -> PyExn + Q;
  str_raises : PyVal -> option PyExn
}.

(** [v is None] and [v == s] for a string literal [s]. *)
Definition is_none (v : PyVal) : bool :=
  match v with VNone => true | _ => false end.

Definition str_is (v : PyVal) (s : string) : bool :=
  match v with VStr t => String.eqb t s | _ => false end.

(** [d.get(k)] on a dictionary with string keys. *)
Definition py_get (d : gmap string PyVal) (k : string) : PyVal :=
  default VNone (d !! k).

(** [l.index(x)]: position of the first occurrence, [None] for the
    [ValueError] of a missing element. *)
Fixpoint index {A} `{EqDecision A} (l : list A) (x : A) : option nat :=
  match l with
  | [] => None
  | y :: rest => if decide (y = x) then Some 0%nat else S <$> index rest x
  end.

(** ** Gesture enumerations (imported by [main.py]) *)

(** Modelled from the spec: the two enumerations are declared in
    [gesture_recognition]; [main.py] names every gesture type and the
    states NONE and COMPLETED, the spec adds IN_PROGRESS. *)

Module GestureType.
Inductive t := NONE | DRAW | CLEAR | UNDO | REDO | SAVE | TOOL_CHANGE | SELECT.
#[global] Instance eq_dec : EqDecision t.
Proof. solve_decision. Defined.
End GestureType.

Module GestureState.
Inductive t := NONE | IN_PROGRESS | COMPLETED.
#[global] Instance eq_dec : EqDecision t.
Proof. solve_decision. Defined.
End GestureState.

(** ** The canvas engine ([canvas_engine], absent from the sources) *)

(** Modelled from the spec: the [BrushType] enumeration of
    [canvas_engine] is missing.  Its members with their names, in
    definition order, and the valid range of the brush size are
    parameters. *)
Class BrushEnum := {
  BrushType : Type;
  BrushType_eq_dec :: EqDecision BrushType;
  BrushType_members : list (string * BrushType);
  min_brush_size : Z;
  max_brush_size : Z
}.

(** Modelled from the spec: a stroke is a sequence of points
    [(x, y, pressure)]. *)
Definition StrokePoint : Type := Z * Z * Q.
Definition Stroke : Type := list StrokePoint.

(** Modelled from the spec: the raster is a [width * height] pixel
    buffer, here row by row. *)
Record Raster := {
  width : nat;
  height : nat;
  pixels : list Color
}.

(** Modelled from the spec: the raster a canvas starts with and a
    clear resets to, the background colour everywhere. *)
Definition blank (w h : nat) (bg : Color) : Raster :=
  {| width := w; height := h; pixels := replicate (w * h) bg |}.

(** Modelled from the spec: the brush configuration of the canvas
    state. *)
Record BrushConfig `{BrushEnum} := {
  brush_type : BrushType;
  brush_size : Z;
  opacity : Q;
  hardness : Q;
  flow : Q;
  pressure_scale : Q;
  color : Color
}.

(** Modelled from the spec: the stamp-and-blend rasterization of one
    segment is floating-point image code of the missing module; it is
    a parameter, a function of the brush, the previous point of the
    stroke (if any), the new point and the raster.  [initial_brush] is
    the configuration a fresh engine starts with. *)
Class Rasterizer `{BrushEnum} := {
  initial_brush : BrushConfig;
  stamp_segment : BrushConfig -> option StrokePoint -> StrokePoint -> Raster -> Raster
}.

(** Modelled from the spec: a history entry is a reversible edit,
    "stroke committed" or "clear", that stores a raster snapshot.  For
    an entry below the cursor the snapshot is the raster before the
    edit; for an undone entry (at or above the cursor) it is the raster
    the edit produced, which [redo] puts back. *)
Inductive Edit :=
| StrokeCommitted (s : Stroke)
| Cleared.

Record HistoryEntry := {
  edit : Edit;
  snapshot : Raster
}.

Definition with_snapshot (r : Raster) (e : HistoryEntry) : HistoryEntry :=
  {| edit := edit e; snapshot := r |}.

(** Modelled from the spec: the active-drawing slot holds the points
    of the stroke being drawn, and the raster as it was when the stroke
    began. *)
Record ActiveStroke := {
  base : Raster;
  points : Stroke
}.

(** Modelled from the spec: the state of [CanvasEngine], a raster, the
    brush configuration, the active stroke and a linear history with a
    single cursor. *)
Record CanvasEngine `{BrushEnum} := {
  raster : Raster;
  background : Color;
  brush : BrushConfig;
  active_stroke : option ActiveStroke;
  history : list HistoryEntry;
  cursor : nat
}.

Section CanvasOps.
Context `{Rasterizer}.

(** Modelled from the spec: a fresh engine has a blank raster, the
    initial brush, no stroke in progress and an empty history. *)
Definition new_canvas (w h : nat) (bg : Color) : CanvasEngine :=
  {| raster := blank w h bg; background := bg; brush := initial_brush;
     active_stroke := None; history := []; cursor := 0 |}.

(** Field updates of the engine state. *)
Definition set_raster (r : Raster) (c : CanvasEngine) : CanvasEngine :=
  {| raster := r; background := background c; brush := brush c;
     active_stroke := active_stroke c; history := history c; cursor := cursor c |}.

Definition set_active (a : option ActiveStroke) (c : CanvasEngine) : CanvasEngine :=
  {| raster := raster c; background := background c; brush := brush c;
     active_stroke := a; history := history c; cursor := cursor c |}.

Definition set_history (h : list HistoryEntry) (k : nat) (c : CanvasEngine) : CanvasEngine :=
  {| raster := raster c; background := background c; brush := brush c;
     active_stroke := active_stroke c; history := h; cursor := k |}.

Definition set_config (b : BrushConfig) (c : CanvasEngine) : CanvasEngine :=
  {| raster := raster c; background := background c; brush := b;
     active_stroke := active_stroke c; history := history c; cursor := cursor c |}.

(** Modelled from the spec: a new edit drops every entry beyond the
    cursor, appends its entry and moves the cursor past it. *)
Definition commit (e : HistoryEntry) (c : CanvasEngine) : CanvasEngine :=
  set_history (take (cursor c) (history c) ++ [e]) (S (cursor c)) c.

(** Modelled from the spec: pen-up seals the active stroke and commits
    it as one entry that keeps the raster from before the stroke. *)
Definition seal (c : CanvasEngine) : CanvasEngine :=
  match active_stroke c with
  | None => c
  | Some a =>
      commit {| edit := StrokeCommitted (points a); snapshot := base a |}
             (set_active None c)
  end.

(** Modelled from the spec: [draw(point, pressure, is_drawing)].  A
    point with [is_drawing] extends the active stroke (creating it when
    there is none) and rasterizes the new segment at once; a null point
    or [is_drawing = False] is the pen-up. *)
Definition draw (point : option Point) (pressure : Q) (is_drawing : bool)
    (c : CanvasEngine) : CanvasEngine :=
  match point, is_drawing with
  | Some (x, y), true =>
      let p : StrokePoint := (x, y, pressure) in
      match active_stroke c with
      | None =>
          set_raster (stamp_segment (brush c) None p (raster c))
            (set_active (Some {| base := raster c; points := [p] |}) c)
      | Some a =>
          set_raster (stamp_segment (brush c) (last (points a)) p (raster c))
            (set_active (Some {| base := base a; points := points a ++ [p] |}) c)
      end
  | _, _ => seal c
  end.

(** Modelled from the spec: [clear()] commits a "clear" entry holding
    the prior raster, then resets the raster to the background. *)
Definition clear (c : CanvasEngine) : CanvasEngine :=
  let r := raster c in
  set_raster (blank (width r) (height r) (background c))
    (commit {| edit := Cleared; snapshot := r |} c).

(** Modelled from the spec: [undo()] steps the cursor back over one
    entry and restores the raster that entry holds, leaving in the
    entry the raster it replaces; a no-op at the start of the
    history. *)
Definition undo (c : CanvasEngine) : CanvasEngine :=
  match cursor c with
  | O => c
  | S k =>
      match history c !! k with
      | None => c
      | Some e =>
          set_raster (snapshot e)
            (set_history (<[k := with_snapshot (raster c) e]> (history c)) k c)
      end
  end.

(** Modelled from the spec: [redo()] steps the cursor forward over one
    undone entry and reapplies it; a no-op at the end of the history. *)
Definition redo (c : CanvasEngine) : CanvasEngine :=
  let k := cursor c in
  match history c !! k with
  | None => c
  | Some e =>
      set_raster (snapshot e)
        (set_history (<[k := with_snapshot (raster c) e]> (history c)) (S k) c)
  end.

(** Modelled from the spec: [save(path)] hands the raster to the image
    writer and keeps the engine as it is, also when writing fails. *)
Definition save (path : string) (c : CanvasEngine) : CanvasEngine := c.

(** Modelled from the spec: clamping to a range. *)
Definition clampZ (lo hi n : Z) : Z := Z.max lo (Z.min hi n).

Definition clampQ (lo hi f : Q) : Q :=
  if Qle_bool f lo then lo else if Qle_bool hi f then hi else f.

(** Modelled from the spec: [set_brush] and [set_color] are pure
    configuration mutators. *)
Definition set_brush (b : BrushType) (c : CanvasEngine) : CanvasEngine :=
  let g := brush c in
  set_config {| brush_type := b; brush_size := brush_size g; opacity := opacity g;
                hardness := hardness g; flow := flow g;
                pressure_scale := pressure_scale g; color := color g |} c.

Definition set_color (rgb : Color) (c : CanvasEngine) : CanvasEngine :=
  let g := brush c in
  set_config {| brush_type := brush_type g; brush_size := brush_size g;
                opacity := opacity g; hardness := hardness g; flow := flow g;
                pressure_scale := pressure_scale g; color := rgb |} c.

(** Modelled from the spec: numeric setters clamp to the valid range,
    the size to [min_brush_size, max_brush_size], the three factors to
    [0, 1]. *)
Definition set_brush_size (n : Z) (c : CanvasEngine) : CanvasEngine :=
  let g := brush c in
  set_config {| brush_type := brush_type g;
                brush_size := clampZ min_brush_size max_brush_size n;
                opacity := opacity g; hardness := hardness g; flow := flow g;
                pressure_scale := pressure_scale g; color := color g |} c.

Definition set_opacity (f : Q) (c : CanvasEngine) : CanvasEngine :=
  let g := brush c in
  set_config {| brush_type := brush_type g; brush_size := brush_size g;
                opacity := clampQ 0 1 f; hardness := hardness g; flow := flow g;
                pressure_scale := pressure_scale g; color := color g |} c.

Definition set_hardness (f : Q) (c : CanvasEngine) : CanvasEngine :=
  let g := brush c in
  set_config {| brush_type := brush_type g; brush_size := brush_size g;
                opacity := opacity g; hardness := clampQ 0 1 f; flow := flow g;
                pressure_scale := pressure_scale g; color := color g |} c.

Definition set_flow (f : Q) (c : CanvasEngine) : CanvasEngine :=
  let g := brush c in
  set_config {| brush_type := brush_type g; brush_size := brush_size g;
                opacity := opacity g; hardness := hardness g; flow := clampQ 0 1 f;
                pressure_scale := pressure_scale g; color := color g |} c.

End CanvasOps.

(** ** The gesture recognizer ([gesture_recognition], absent from the sources) *)

(** Landmarks as [main.py] reads them, one [[id, x, y]] row per
    landmark; finger states as five booleans, thumb first. *)
Definition Landmarks : Type := list (list Z).
Definition FingerState : Type := list bool.

(** Modelled from the spec: the finger-pose signature of each gesture
    type (with its geometric checks) and the confidence score of a
    match are image-geometry code of the missing module; both are
    parameters. *)
Class PoseModel := {
  signature : GestureType.t -> Landmarks -> FingerState -> bool;
  confidence : GestureType.t -> Landmarks -> FingerState -> Q
}.

(** Modelled from the spec: the recognizer session state, the rolling
    history of recent observations (newest first) and the "last fired"
    tag, with the two configuration values. *)
Record GestureRecognizer := {
  detection_threshold : Q;
  debounce_window : nat;
  observations : list (GestureType.t * Q);
  last_fired : GestureType.t
}.

(** Modelled from the spec: a fresh session has seen nothing and
    fired nothing. *)
Definition new_recognizer (threshold : Q) (window : nat) : GestureRecognizer :=
  {| detection_threshold := threshold; debounce_window := window;
     observations := []; last_fired := GestureType.NONE |}.

Definition set_session (obs : list (GestureType.t * Q)) (fired : GestureType.t)
    (r : GestureRecognizer) : GestureRecognizer :=
  {| detection_threshold := detection_threshold r;
     debounce_window := debounce_window r;
     observations := obs; last_fired := fired |}.

(** Modelled from the spec: the reset the caller requests when the
    hand has been lost. *)
Definition reset (r : GestureRecognizer) : GestureRecognizer :=
  set_session [] GestureType.NONE r.

(** Modelled from the spec: ambiguous frames resolve by this fixed
    precedence. *)
Definition precedence : list GestureType.t :=
  [GestureType.DRAW; GestureType.SELECT; GestureType.CLEAR; GestureType.UNDO;
   GestureType.REDO; GestureType.SAVE; GestureType.TOOL_CHANGE].

(** Modelled from the spec: for how many frames in a row [g] has been
    seen, counted from the newest observation. *)
Fixpoint held (g : GestureType.t) (obs : list (GestureType.t * Q)) : nat :=
  match obs with
  | [] => O
  | (g', _) :: rest => if decide (g' = g) then S (held g rest) else O
  end.

Section Recognizer.
Context `{PoseModel}.

(** Modelled from the spec: a frame matches the signature of [g] when
    its finger pattern and geometry fit and the confidence of the fit
    reaches the detection threshold; "a match below the threshold
    yields NONE regardless of finger pattern". *)
Definition matches (r : GestureRecognizer) (g : GestureType.t)
    (lm : Landmarks) (f : FingerState) : bool :=
  signature g lm f && Qle_bool (detection_threshold r) (confidence g lm f).

(** Modelled from the spec: the first signature in precedence order
    that fits picks the gesture type; below the threshold the type is
    NONE. *)
Definition classify (r : GestureRecognizer) (lm : Landmarks) (f : FingerState)
    : GestureType.t * Q :=
  match List.find (fun g => signature g lm f) precedence with
  | None => (GestureType.NONE, 0%Q)
  | Some g =>
      let c := confidence g lm f in
      if Qle_bool (detection_threshold r) c then (g, c) else (GestureType.NONE, c)
  end.

(** Modelled from the spec: the debounce state machine.  DRAW reports
    IN_PROGRESS on the spot.  Any other gesture is a candidate
    (IN_PROGRESS) until it has been seen for [debounce_window] frames
    in a row, fires COMPLETED on that frame, and is then reported as
    NONE for as long as the pose stays.  No gesture empties the rolling
    history. *)
Definition recognize_gesture (r : GestureRecognizer) (lm : Landmarks) (f : FingerState)
    : GestureRecognizer * (GestureType.t * Q * GestureState.t) :=
  let '(g, c) := classify r lm f in
  match g with
  | GestureType.NONE =>
      (set_session [] GestureType.NONE r, (GestureType.NONE, c, GestureState.NONE))
  | GestureType.DRAW =>
      (set_session (take (debounce_window r) ((g, c) :: observations r)) GestureType.NONE r,
       (GestureType.DRAW, c, GestureState.IN_PROGRESS))
  | _ =>
      let obs := take (debounce_window r) ((g, c) :: observations r) in
      if decide (last_fired r = g) then
        (set_session obs g r, (GestureType.NONE, c, GestureState.NONE))
      else if (debounce_window r <=? held g obs)%nat then
        (set_session obs g r, (g, c, GestureState.COMPLETED))
      else
        (set_session obs GestureType.NONE r, (g, c, GestureState.IN_PROGRESS))
  end.

(** The recognizer run over a stream of frames: the reports, in frame
    order, and the final session state. *)
Fixpoint recognize_stream (r : GestureRecognizer) (frames : list (Landmarks * FingerState))
    : GestureRecognizer * list (GestureType.t * Q * GestureState.t) :=
  match frames with
  | [] => (r, [])
  | (lm, f) :: rest =>
      let '(r1, out) := recognize_gesture r lm f in
      let '(r2, outs) := recognize_stream r1 rest in
      (r2, out :: outs)
  end.

End Recognizer.

Definition report_state (o : GestureType.t * Q * GestureState.t) : GestureState.t := snd o.
Definition report_gesture (o : GestureType.t * Q * GestureState.t) : GestureType.t := fst (fst o).

(** How many reports of a run are COMPLETED for gesture [g]. *)
Definition completions (g : GestureType.t) (outs : list (GestureType.t * Q * GestureState.t)) : nat :=
  length (filter (fun o => report_gesture o = g /\ report_state o = GestureState.COMPLETED) outs).

(** The session is at the start of a run of [g]: the newest observation
    is not [g] and [g] is not the gesture that fired last.  A fresh
    session is, and so is any session right after a frame of another
    pose. *)
Definition run_start (g : GestureType.t) (r : GestureRecognizer) : Prop :=
  last_fired r <> g /\ held g (observations r) = O.

(** ** The application loop ([src/main.py]) *)

(** A call of a [CanvasEngine] method as [run] writes it; [None] for a
    keyword argument the call leaves to its default. *)
Inductive CanvasCall `{BrushEnum} :=
| call_draw (point : option Point) (pressure : option Q) (is_drawing : option bool)
| call_clear
| call_undo
| call_redo
| call_save (path : string)
| call_set_brush (b : BrushType)
| call_set_color (v : PyVal)
| call_set_brush_size (n : Z)
| call_set_opacity (f : Q)
| call_set_hardness (f : Q)
| call_set_flow (f : Q).

(** What one run leaves behind on its collaborators, in order: canvas
    calls, lines printed and the queries put to the UI. *)
Inductive Event `{BrushEnum} :=
| ev_canvas (c : CanvasCall)
| ev_print (line : string)
| ev_print_property_error (prop val : PyVal) (e : PyExn)
| ev_handle_interaction (point : option Point) (clicked : bool).

(** The attributes of [GestureArtApp] the loop reads and writes,
    and the trace of what it has done so far. *)
Record GestureArtApp `{BrushEnum} := {
  canvas : CanvasEngine;
  last_draw_state : bool;
  mouse_point : option Point;
  mouse_click : bool;
  trace : list Event
}.

(** What the collaborators answer during one pass of the loop:
    [cap.read()], the tracker, the recognizer, the UI and
    [cv2.waitKey] with the mouse callbacks it delivers. *)
Record Frame := {
  ret : bool;
  hands_detected : bool;
  found : bool;
  landmarks : Landmarks;
  fingers : FingerState;
  recognized : GestureType.t * Q * GestureState.t;
  interaction : option (gmap string PyVal);
  current_color : PyVal;
  mouse_events : list (Z * Z * Z);
  key : Z
}.

(** How the loop ends: the camera fails, the quit key is read, an
    exception escapes; [Running] when the frames given are used up. *)
Inductive Exit :=
| CameraError
| Quit
| Crash (e : PyExn)
| Running.

Definition EVENT_LBUTTONDOWN : Z := 1.

Section App.
Context `{Rasterizer} `{PyBuiltins}.

(** Modelled from the spec: the engine's answer to each call.  The
    defaults of [draw] are only met with a null point, where they do
    not matter; a colour that is no RGB triple is left aside. *)
Definition exec_call (k : CanvasCall) (c : CanvasEngine) : CanvasEngine :=
  match k with
  | call_draw p pr d => draw p (default 1%Q pr) (default true d) c
  | call_clear => clear c
  | call_undo => undo c
  | call_redo => redo c
  | call_save path => save path c
  | call_set_brush b => set_brush b c
  | call_set_color (VColor rgb) => set_color rgb c
  | call_set_color _ => c
  | call_set_brush_size n => set_brush_size n c
  | call_set_opacity f => set_opacity f c
  | call_set_hardness f => set_hardness f c
  | call_set_flow f => set_flow f c
  end.

(** [__init__]: a white canvas of the given size, nothing drawn. *)
Definition new_app (w h : nat) : GestureArtApp :=
  {| canvas := new_canvas w h (255, 255, 255); last_draw_state := false;
     mouse_point := None; mouse_click := false; trace := [] |}.

(** Statements of [run] as state transformers that may raise. *)
Definition M (A : Type) : Type := GestureArtApp -> (PyExn + A) * GestureArtApp.

Definition pure {A} (x : A) : M A := fun a => (inr x, a).
Definition raise {A} (e : PyExn) : M A := fun a => (inl e, a).
Definition bind {A B} (m : M A) (k : A -> M B) : M B :=
  fun a => match m a with
           | (inl e, a1) => (inl e, a1)
           | (inr x, a1) => k x a1
           end.
Definition get : M GestureArtApp := fun a => (inr a, a).

Definition emit (e : Event) : M unit :=
  fun a => (inr tt,
            {| canvas := canvas a; last_draw_state := last_draw_state a;
               mouse_point := mouse_point a; mouse_click := mouse_click a;
               trace := trace a ++ [e] |}).

(** [self.canvas.<method>(...)] *)
Definition call (k : CanvasCall) : M unit :=
  fun a => (inr tt,
            {| canvas := exec_call k (canvas a); last_draw_state := last_draw_state a;
               mouse_point := mouse_point a; mouse_click := mouse_click a;
               trace := trace a ++ [ev_canvas k] |}).

Definition set_last_draw_state (b : bool) : M unit :=
  fun a => (inr tt,
            {| canvas := canvas a; last_draw_state := b;
               mouse_point := mouse_point a; mouse_click := mouse_click a;
               trace := trace a |}).

Definition set_mouse (p : option Point) (click : bool) (a : GestureArtApp) : GestureArtApp :=
  {| canvas := canvas a; last_draw_state := last_draw_state a;
     mouse_point := p; mouse_click := click; trace := trace a |}.

Notation "x <- m ;; k" := (bind m (fun x => k))
  (at level 100, m at next level, right associativity).
Notation "m ;; k" := (bind m (fun _ => k))
  (at level 100, right associativity).

(** [(landmarks[8][1], landmarks[8][2])] *)
Definition fingertip (lm : Landmarks) : M Point :=
  match lm !! 8%nat with
  | None => raise IndexError
  | Some row =>
      match row !! 1%nat, row !! 2%nat with
      | Some x, Some y => pure (x, y)
      | _, _ => raise IndexError
      end
  end.

(** [list(BrushType)] and [BrushType[name]] *)
Definition brushes : list BrushType := BrushType_members.*2.

Fixpoint member (name : string) (ms : list (string * BrushType)) : option BrushType :=
  match ms with
  | [] => None
  | (n, b) :: rest => if String.eqb n name then Some b else member name rest
  end.

(** Lines 67-70: the brush after the current one, round the
    enumeration. *)
Definition next_brush : M unit :=
  a <- get ;;
  match index brushes (brush_type (brush (canvas a))) with
  | None => raise ValueError
  | Some idx =>
      match brushes !! ((idx + 1) mod length brushes)%nat with
      | None => raise IndexError
      | Some new_brush => call (call_set_brush new_brush)
      end
  end.

(** Lines 57-70: a completed gesture becomes a canvas command. *)
Definition dispatch_gesture (gesture : GestureType.t) (state : GestureState.t) : M unit :=
  if decide (state = GestureState.COMPLETED) then
    match gesture with
    | GestureType.CLEAR => call call_clear
    | GestureType.UNDO => call call_undo
    | GestureType.REDO => call call_redo
    | GestureType.SAVE => call (call_save "output/drawing.png")
    | GestureType.TOOL_CHANGE => next_brush
    | _ => pure tt
    end
  else pure tt.

(** Lines 53-55: the pen-up that ends a run of DRAW frames. *)
Definition pen_up : M unit :=
  a <- get ;;
  if last_draw_state a then
    call (call_draw None None None) ;; set_last_draw_state false
  else pure tt.

(** Lines 49-70. *)
Definition on_gesture (gesture : GestureType.t) (state : GestureState.t)
    (interaction_point : Point) : M unit :=
  if decide (gesture = GestureType.DRAW) then
    call (call_draw (Some interaction_point) (Some 1%Q) (Some true)) ;;
    set_last_draw_state true
  else
    pen_up ;; dispatch_gesture gesture state.

(** Lines 37-70: what the hand does in this frame; the result is the
    gesture and the interaction point handed on to the UI. *)
Definition hand_phase (fr : Frame) : M (GestureType.t * option Point) :=
  a <- get ;;
  if hands_detected fr && found fr then
    let '(gesture, conf, state) := recognized fr in
    p <- fingertip (landmarks fr) ;;
    on_gesture gesture state p ;;
    pure (gesture, Some p)
  else pure (GestureType.NONE, mouse_point a).

(** [d[k]] *)
Definition py_item (d : gmap string PyVal) (k : string) : M PyVal :=
  match d !! k with
  | Some v => pure v
  | None => raise (KeyError k)
  end.

(** Lines 90-96: a brush picked by name in the UI. *)
Definition select_brush (brush_name : PyVal) : M unit :=
  match brush_name with
  | VStr name =>
      match member (upper name) BrushType_members with
      | Some brush_enum => call (call_set_brush brush_enum)
      | None => emit (ev_print ("Invalid brush name: " ++ name))
      end
  | _ => pure tt
  end.

(** The body of the [try] of lines 101-111 once the conversion of
    [val] has been attempted: the setter is called, or the handler
    prints its line.  The line formats [prop], here one of the four
    names, and [val]; an exception of [str(val)] leaves the handler. *)
Definition guarded (prop val : PyVal) (k : PyExn + CanvasCall) : M unit :=
  match k with
  | inr c => call c
  | inl e =>
      match str_raises val with
      | Some e1 => raise e1
      | None => emit (ev_print_property_error prop val e)
      end
  end.

Definition convert {A} (f : A -> CanvasCall) (x : PyExn + A) : PyExn + CanvasCall :=
  match x with
  | inr v => inr (f v)
  | inl e => inl e
  end.

(** Lines 98-111: a brush property changed in the UI. *)
Definition change_property (prop val : PyVal) : M unit :=
  if truthy prop && negb (is_none val) then
    if str_is prop "size" then guarded prop val (convert call_set_brush_size (py_int val))
    else if str_is prop "opacity" then guarded prop val (convert call_set_opacity (py_float val))
    else if str_is prop "hardness" then guarded prop val (convert call_set_hardness (py_float val))
    else if str_is prop "flow" then guarded prop val (convert call_set_flow (py_float val))
    else pure tt
  else pure tt.

(** Lines 74-111: the command of the UI, if it has one. *)
Definition on_interaction (fr : Frame) : M unit :=
  match interaction fr with
  | None => pure tt
  | Some d =>
      if decide (d = ∅) then pure tt
      else
        let action_type := py_get d "type" in
        if str_is action_type "clear" then call call_clear
        else if str_is action_type "undo" then call call_undo
        else if str_is action_type "redo" then call call_redo
        else if str_is action_type "save" then call (call_save "output/drawing.png")
        else if str_is action_type "color_selected" then
          c <- py_item d "color" ;; call (call_set_color c)
        else if str_is action_type "slider_changed" then
          call (call_set_color (current_color fr))
        else if str_is action_type "brush_selected" then
          brush_name <- py_item d "name" ;; select_brush brush_name
        else if str_is action_type "brush_property_changed" then
          change_property (py_get d "name") (py_get d "value")
        else pure tt
  end.

(** Line 113: [self.mouse_click = False] *)
Definition consume_click : M unit :=
  fun a => (inr tt, set_mouse (mouse_point a) false a).

(** Lines 72-113: the UI is asked with the interaction point and the
    click, its command is carried out and the click is consumed. *)
Definition ui_phase (fr : Frame) (gesture : GestureType.t) (interaction_point : option Point)
    : M unit :=
  a <- get ;;
  emit (ev_handle_interaction interaction_point
          (bool_decide (gesture = GestureType.SELECT) || mouse_click a)) ;;
  on_interaction fr ;;
  consume_click.

(** Lines 37-113: everything one pass does before it shows the frame. *)
Definition frame_body (fr : Frame) : M unit :=
  r <- hand_phase fr ;;
  ui_phase fr (fst r) (snd r).

(** [mouse_callback] *)
Definition mouse_callback (ev : Z * Z * Z) (a : GestureArtApp) : GestureArtApp :=
  let '(event, x, y) := ev in
  set_mouse (Some (x, y)) (if event =? EVENT_LBUTTONDOWN then true else mouse_click a) a.

(** [cv2.waitKey(1)] delivers the pending mouse events. *)
Definition wait_key (fr : Frame) (a : GestureArtApp) : GestureArtApp :=
  fold_left (fun a1 ev => mouse_callback ev a1) (mouse_events fr) a.

(** [cv2.waitKey(1) & 0xFF == ord('q')] *)
Definition quit_key (k : Z) : bool :=
  Z.land k 255 =? Z.of_nat (nat_of_ascii "q").

(** One pass of [while True]: [Some] exit when the loop is left. *)
Definition loop_pass (fr : Frame) (a : GestureArtApp) : option Exit * GestureArtApp :=
  if negb (ret fr) then
    (Some CameraError, snd (emit (ev_print "Camera Error") a))
  else
    match frame_body fr a with
    | (inl e, a1) => (Some (Crash e), a1)
    | (inr _, a1) =>
        let a2 := wait_key fr a1 in
        if quit_key (key fr) then (Some Quit, a2) else (None, a2)
    end.

(** [run]: the loop over the frames the camera delivers; after the loop
    only the capture and the windows are released. *)
Fixpoint run (frames : list Frame) (a : GestureArtApp) : Exit * GestureArtApp :=
  match frames with
  | [] => (Running, a)
  | fr :: rest =>
      match loop_pass fr a with
      | (Some e, a1) => (e, a1)
      | (None, a1) => run rest a1
      end
  end.

(** The states in which a pass of the loop can begin. *)
Inductive reachable : GestureArtApp -> Prop :=
| reach_start (w h : nat) : reachable (new_app w h)
| reach_pass (fr : Frame) (a a1 : GestureArtApp) :
    reachable a -> loop_pass fr a = (None, a1) -> reachable a1.

(** The application after one completed TOOL_CHANGE gesture has been
    dispatched. *)
Definition tool_change (a : GestureArtApp) : GestureArtApp :=
  (dispatch_gesture GestureType.TOOL_CHANGE GestureState.COMPLETED a).2.

(** A computation only adds events that satisfy [P] to the trace. *)
Definition adds {A} (P : Event -> Prop) (m : M A) : Prop :=
  forall a, exists evs, trace (m a).2 = trace a ++ evs /\ Forall P evs.

(** A computation keeps the property [I] of the application. *)
Definition keeps {A} (I : GestureArtApp -> Prop) (m : M A) : Prop :=
  forall a, I a -> I (m a).2.

(** A call that puts no point on the canvas. *)
Definition lifts_pen (k : CanvasCall) : Prop :=
  match k with
  | call_draw (Some _) _ _ => False
  | _ => True
  end.

(** While the loop does not think it is drawing, the canvas has no
    stroke in progress. *)
Definition sealed_unless_drawing (a : GestureArtApp) : Prop :=
  last_draw_state a = false -> active_stroke (canvas a) = None.

(** Every point of a stroke was put down at pressure 1.0: the points
    of the stroke in progress and those of the strokes in the
    history. *)
Definition full_pressure_stroke (s : Stroke) : Prop :=
  Forall (fun p : StrokePoint => p.2 = 1%Q) s.

Definition full_pressure (c : CanvasEngine) : Prop :=
  (forall a, active_stroke c = Some a -> full_pressure_stroke (points a))
  /\ Forall (fun e => match edit e with
                      | StrokeCommitted s => full_pressure_stroke s
                      | Cleared => True
                      end) (history c).

(** What holds whenever a pass of the loop begins. *)
Definition loop_invariant (a : GestureArtApp) : Prop :=
  sealed_unless_drawing a /\ full_pressure (canvas a).

(** A draw call of a pass either lifts the pen or puts down the index
    fingertip of the frame at pressure 1.0; other events are free. *)
Definition fingertip_draw (fr : Frame) (e : Event) : Prop :=
  match e with
  | ev_canvas (call_draw (Some (x, y)) pressure is_drawing) =>
      pressure = Some 1%Q /\ is_drawing = Some true
      /\ exists row, landmarks fr !! 8%nat = Some row
           /\ row !! 1%nat = Some x /\ row !! 2%nat = Some y
  | _ => True
  end.

(** Whether a mouse event is a press of the left button. *)
Definition pressed (ev : Z * Z * Z) : bool := ev.1.1 =? EVENT_LBUTTONDOWN.

(** A pass with a working camera in which no hand is found, the UI
    has no command and the quit key is not read. *)
Definition hand_away (fr : Frame) : Prop :=
  ret fr = true /\ hands_detected fr && found fr = false
  /\ interaction fr = None /\ quit_key (key fr) = false.

(** A query put to the UI. *)
Definition is_query (e : Event) : Prop :=
  match e with
  | ev_handle_interaction _ _ => True
  | _ => False
  end.

(** The action types lines 76-97 know. *)
Definition action_types : list string :=
  ["clear"; "undo"; "redo"; "save"; "color_selected"; "slider_changed";
   "brush_selected"; "brush_property_changed"].

(** What lines 49-70 may ask of the canvas for a frame recognised as
    gesture [g] in state [st]: a point for DRAW, the pen-up otherwise,
    and a command only for its own completed gesture. *)
Definition gesture_call (g : GestureType.t) (st : GestureState.t) (e : Event) : Prop :=
  match e with
  | ev_canvas (call_draw (Some _) _ _) => g = GestureType.DRAW
  | ev_canvas (call_draw None _ _) => g <> GestureType.DRAW
  | ev_canvas call_clear => g = GestureType.CLEAR /\ st = GestureState.COMPLETED
  | ev_canvas call_undo => g = GestureType.UNDO /\ st = GestureState.COMPLETED
  | ev_canvas call_redo => g = GestureType.REDO /\ st = GestureState.COMPLETED
  | ev_canvas (call_save path) =>
      g = GestureType.SAVE /\ st = GestureState.COMPLETED /\ path = "output/drawing.png"
  | ev_canvas (call_set_brush _) =>
      g = GestureType.TOOL_CHANGE /\ st = GestureState.COMPLETED
  | _ => False
  end.

(** One of the four numeric setters of the brush. *)
Definition numeric_setter (k : CanvasCall) : Prop :=
  match k with
  | call_set_brush_size _ | call_set_opacity _ | call_set_hardness _ | call_set_flow _ => True
  | _ => False
  end.

(** What the UI command of a pass may leave in the trace: anything but
    a query and a draw call. *)
Definition ui_event (e : Event) : Prop :=
  match e with
  | ev_handle_interaction _ _ => False
  | ev_canvas (call_draw _ _ _) => False
  | _ => True
  end.

(** A [set_brush] call carries a member of [list(BrushType)]. *)
Definition enumerated_brush (e : Event) : Prop :=
  match e with
  | ev_canvas (call_set_brush b) => b ∈ brushes
  | _ => True
  end.

End App.

(** ** A small studio: concrete collaborators to run the definitions on *)

Module Studio.

(** The brush variants the specification names, a size range of
    [1..100] and a hard, opaque, one-pixel stamp: the new point's pixel
    takes the brush colour. *)
Inductive Brush := PENCIL | MARKER | AIRBRUSH | ERASER.

#[global] Instance Brush_eq_dec : EqDecision Brush.
Proof. solve_decision. Defined.

#[global] Instance enum : BrushEnum := {|
  BrushType := Brush;
  BrushType_members :=
    [("PENCIL", PENCIL); ("MARKER", MARKER); ("AIRBRUSH", AIRBRUSH); ("ERASER", ERASER)];
  min_brush_size := 1;
  max_brush_size := 100
|}.

Definition pixel_stamp (b : BrushConfig) (prev : option StrokePoint) (p : StrokePoint)
    (r : Raster) : Raster :=
  let '(x, y, _) := p in
  if (0 <=? x) && (x <? Z.of_nat (width r)) && (0 <=? y) && (y <? Z.of_nat (height r)) then
    {| width := width r; height := height r;
       pixels := <[Z.to_nat (y * Z.of_nat (width r) + x) := color b]> (pixels r) |}
  else r.

#[global] Instance rasterizer : Rasterizer := {|
  initial_brush := {| brush_type := PENCIL; brush_size := 5; opacity := 1; hardness := 1;
                      flow := 1; pressure_scale := 1; color := (0, 0, 0) |};
  stamp_segment := pixel_stamp
|}.

(** Stand-ins for Python's built-ins on what the studio's UI sends:
    ASCII text, and numbers small enough to convert and to print.
    Upper case of the letters a-z, [int] truncating towards zero, and
    text taken as holding no number. *)
Definition upper_ascii (a : ascii) : ascii :=
  let n := nat_of_ascii a in
  if (andb (Nat.leb 97 n) (Nat.leb n 122)) then ascii_of_nat (n - 32) else a.

Fixpoint upper_text (s : string) : string :=
  match s with
  | EmptyString => EmptyString
  | String a rest => String (upper_ascii a) (upper_text rest)
  end.

Definition int_of (v : PyVal) : PyExn + Z :=
  match v with
  | VInt n => inr n
  | VBool b => inr (if b then 1 else 0)
  | VFloat f => inr (Z.quot (Qnum f) (Zpos (Qden f)))
  | VStr _ => inl ValueError
  | VNone | VColor _ => inl TypeError
  end.

Definition float_of (v : PyVal) : PyExn + Q :=
  match v with
  | VInt n => inr (inject_Z n)
  | VBool b => inr (if b then 1%Q else 0%Q)
  | VFloat f => inr f
  | VStr _ => inl ValueError
  | VNone | VColor _ => inl TypeError
  end.

#[global] Instance builtins : PyBuiltins := {|
  upper := upper_text;
  py_int := int_of;
  py_float := float_of;
  str_raises := fun _ => None
|}.

(** Index finger alone is DRAW, a fist is CLEAR, an open hand is
    TOOL_CHANGE; every fit scores 0.9. *)
#[global] Instance poses : PoseModel := {|
  signature g lm f :=
    match g with
    | GestureType.DRAW => bool_decide (f = [false; true; false; false; false])
    | GestureType.CLEAR => bool_decide (f = [false; false; false; false; false])
    | GestureType.TOOL_CHANGE => bool_decide (f = [true; true; true; true; true])
    | _ => false
    end;
  confidence g lm f := 9 # 10
|}.

(** A hand of 21 landmarks with the index fingertip at [(x, y)]. *)
Definition hand (x y : Z) : Landmarks :=
  replicate 8 [0; 0; 0] ++ [[8; x; y]] ++ replicate 12 [0; 0; 0].

Definition fist : FingerState := [false; false; false; false; false].
Definition pointing : FingerState := [false; true; false; false; false].

(** A frame in which the recognizer reports [g] in state [s] for a
    hand pointing at [(x, y)] while the key [k] is read, and a frame
    without a hand in which the UI answers with the command [d]. *)
Definition gesture_frame (g : GestureType.t) (s : GestureState.t) (x y : Z) (k : Z) : Frame :=
  {| ret := true; hands_detected := true; found := true; landmarks := hand x y;
     fingers := []; recognized := (g, 9 # 10, s);
     interaction := None; current_color := VNone; mouse_events := []; key := k |}.

Definition ui_frame (d : gmap string PyVal) : Frame :=
  {| ret := true; hands_detected := false; found := false; landmarks := [];
     fingers := []; recognized := (GestureType.NONE, 0%Q, GestureState.NONE);
     interaction := Some d; current_color := VNone; mouse_events := []; key := -1 |}.

(** A 2x1 canvas after one committed one-point stroke. *)
Definition one_stroke : CanvasEngine :=
  draw None 1 true (draw (Some (0, 0)) 1 true (new_canvas 2 1 (255, 255, 255))).

(** The application after one DRAW frame, and a session that is quit
    in the middle of a stroke. *)
Definition drawing : GestureArtApp :=
  (loop_pass (gesture_frame GestureType.DRAW GestureState.IN_PROGRESS 0 0 (-1)) (new_app 2 1)).2.

Definition quit_while_drawing : Exit * GestureArtApp :=
  run [gesture_frame GestureType.DRAW GestureState.IN_PROGRESS 0 0 113] (new_app 2 1).

(** A brush the UI asks for by a name the enumeration does not have. *)
Definition crayon_request : gmap string PyVal :=
  {[ "type" := VStr "brush_selected"; "name" := VStr "crayon" ]}.

(** A pass without a hand: the mouse moves to [(5, 6)] and is pressed
    there. *)
Definition away : Frame :=
  {| ret := true; hands_detected := false; found := false; landmarks := [];
     fingers := []; recognized := (GestureType.NONE, 0%Q, GestureState.NONE);
     interaction := None; current_color := VNone;
     mouse_events := [(0, 5, 6); (1, 5, 6); (0, 7, 6)]; key := -1 |}.

(** A frame whose hand has only three landmarks. *)
Definition short_hand : Frame :=
  {| ret := true; hands_detected := true; found := true;
     landmarks := [[0; 1; 1]; [1; 2; 2]; [2; 3; 3]];
     fingers := []; recognized := (GestureType.DRAW, 9 # 10, GestureState.IN_PROGRESS);
     interaction := None; current_color := VNone; mouse_events := []; key := -1 |}.

(** Commands of the UI: a brush by name, a colour pick that lost its
    colour, a size given as a float, and a command of a type the loop
    does not know. *)
Definition pencil_request : gmap string PyVal :=
  {[ "type" := VStr "brush_selected"; "name" := VStr "Marker" ]}.

Definition colour_lost : gmap string PyVal :=
  {[ "type" := VStr "color_selected" ]}.

Definition size_as_float : gmap string PyVal :=
  {[ "type" := VStr "brush_property_changed"; "name" := VStr "size";
     "value" := VFloat (-79 # 10) ]}.

Definition zoom_request : gmap string PyVal :=
  {[ "type" := VStr "zoom"; "name" := VStr "in" ]}.

End Studio.

(** * Properties *)

(** ** The canvas engine *)

Section CanvasFacts.
Context `{Rasterizer}.

Lemma with_snapshot_back (e : HistoryEntry) (r : Raster) :
  with_snapshot (snapshot e) (with_snapshot r e) = e.
Proof. destruct e; reflexivity. Qed.

Lemma canvas_eta (c : CanvasEngine) :
  {| raster := raster c; background := background c; brush := brush c;
     active_stroke := active_stroke c; history := history c; cursor := cursor c |} = c.
Proof. destruct c; reflexivity. Qed.

(** Where [undo] has an entry to step over, [redo] puts back all that
    [undo] took away. *)
Lemma redo_undo (c : CanvasEngine) : cursor c <> 0%nat -> redo (undo c) = c.
Proof.
  intros Hpos. unfold undo.
  destruct (cursor c) as [|k] eqn:Hk; [congruence|].
  destruct (history c !! k) as [e|] eqn:He.
  - assert (Hlt : (k < length (history c))%nat) by (eapply lookup_lt_Some; eauto).
    unfold redo; cbn.
    rewrite list_lookup_insert_eq by exact Hlt.
    unfold set_raster, set_history; cbn.
    rewrite list_insert_insert_eq, with_snapshot_back, (list_insert_id _ _ _ He).
    rewrite <- Hk. apply canvas_eta.
  - assert (Hge : (length (history c) <= k)%nat) by (apply lookup_ge_None; exact He).
    unfold redo. rewrite Hk.
    rewrite (proj2 (lookup_ge_None (history c) (S k))) by lia.
    reflexivity.
Qed.

(** With nothing recorded, both are no-ops. *)
Lemma redo_undo_empty (c : CanvasEngine) : history c = [] -> redo (undo c) = c.
Proof.
  intros Hh. unfold undo.
  destruct (cursor c) as [|k] eqn:Hk.
  - unfold redo. rewrite Hh, lookup_nil. reflexivity.
  - rewrite Hh, lookup_nil. unfold redo. rewrite Hh, lookup_nil. reflexivity.
Qed.

Lemma undo_cursor (c : CanvasEngine) : (cursor c - 1 <= cursor (undo c))%nat.
Proof.
  unfold undo. destruct (cursor c) as [|k] eqn:Hk; [rewrite Hk; lia|].
  destruct (history c !! k); cbn; [lia | rewrite Hk; lia].
Qed.

Lemma undo_iter_cursor (n : nat) (c : CanvasEngine) :
  (cursor c - n <= cursor (Nat.iter n undo c))%nat.
Proof.
  induction n as [|n IH]; [cbn; lia|].
  change (Nat.iter (S n) undo c) with (undo (Nat.iter n undo c)).
  pose proof (undo_cursor (Nat.iter n undo c)). lia.
Qed.

(** A new entry leaves nothing at or beyond the cursor. *)
Lemma commit_no_future (e : HistoryEntry) (c : CanvasEngine) :
  history (commit e c) !! cursor (commit e c) = None.
Proof.
  unfold commit; cbn. apply lookup_ge_None.
  rewrite length_app, length_take; cbn. lia.
Qed.

Lemma redo_no_future (c : CanvasEngine) :
  history c !! cursor c = None -> redo c = c.
Proof. intros Hn. unfold redo. rewrite Hn. reflexivity. Qed.

Lemma clear_redo (c : CanvasEngine) : redo (clear c) = clear c.
Proof. apply redo_no_future. unfold clear; cbn. apply commit_no_future. Qed.

Lemma seal_redo (c : CanvasEngine) (a : ActiveStroke) :
  active_stroke c = Some a -> redo (seal c) = seal c.
Proof.
  intros Ha. apply redo_no_future. unfold seal. rewrite Ha.
  apply commit_no_future.
Qed.

(** C1 (as amended): where [undo()] has an entry to step back over, or
    the history is empty, [undo()] followed at once by [redo()], any
    number of times, gives back the engine as it was, and with it the
    raster bit for bit; so do [n] undos followed by [n] redos while the
    cursor allows [n] undos. *)
Theorem undo_redo_restores_raster (c : CanvasEngine) (n : nat) :
  cursor c <> 0%nat \/ history c = [] ->
  Nat.iter n (fun s => redo (undo s)) c = c /\
  raster (Nat.iter n (fun s => redo (undo s)) c) = raster c /\
  ((n <= cursor c)%nat -> raster (Nat.iter n redo (Nat.iter n undo c)) = raster c).
Proof.
  intros Hc.
  assert (Hpair : Nat.iter n (fun s => redo (undo s)) c = c).
  { induction n as [|m IH]; [reflexivity|].
    rewrite Nat.iter_succ, IH. destruct Hc; [apply redo_undo | apply redo_undo_empty]; assumption. }
  split; [exact Hpair|]. split; [rewrite Hpair; reflexivity|].
  intros Hn. f_equal. clear Hpair Hc.
  induction n as [|m IH]; [reflexivity|].
  rewrite Nat.iter_succ_r, (Nat.iter_succ m undo).
  rewrite redo_undo.
  - apply IH. lia.
  - pose proof (undo_iter_cursor m c). lia.
Qed.

(** C2: in any state, and so in any state reached by undos, a new edit
    (a clear, or the pen-up that commits the active stroke) keeps the
    entries below the cursor, drops those beyond it and appends its
    own; a [redo()] after it, repeated at will, changes nothing. *)
Theorem edit_after_undo_discards_redo (c0 : CanvasEngine) (undos k : nat) :
  let c := Nat.iter undos undo c0 in
  (history (clear c) = take (cursor c) (history c) ++ [{| edit := Cleared; snapshot := raster c |}]
   /\ Nat.iter k redo (clear c) = clear c)
  /\ (forall a pressure is_drawing,
        active_stroke c = Some a ->
        history (draw None pressure is_drawing c)
          = take (cursor c) (history c)
              ++ [{| edit := StrokeCommitted (points a); snapshot := base a |}]
        /\ Nat.iter k redo (draw None pressure is_drawing c)
           = draw None pressure is_drawing c).
Proof.
  intros c. split.
  - split; [reflexivity|].
    induction k as [|m IH]; [reflexivity|]. rewrite Nat.iter_succ, IH. apply clear_redo.
  - intros a pressure is_drawing Ha. cbn [draw].
    split.
    + unfold seal. rewrite Ha. reflexivity.
    + induction k as [|m IH]; [reflexivity|]. rewrite Nat.iter_succ, IH. eapply seal_redo; eauto.
Qed.

(** C5: the numeric setters never fail and clamp: a size below the
    range becomes its minimum, one above becomes its maximum, a factor
    below 0 becomes 0 and one above 1 becomes 1, and values in range
    are kept; [set_brush_size(-5)] gives the minimum size and
    [set_opacity(3.7)] the maximum opacity. *)
Theorem setters_clamp (c : CanvasEngine) :
  0 < min_brush_size <= max_brush_size ->
  (forall n, n < min_brush_size -> brush_size (brush (set_brush_size n c)) = min_brush_size)
  /\ (forall n, max_brush_size < n -> brush_size (brush (set_brush_size n c)) = max_brush_size)
  /\ (forall n, min_brush_size <= n <= max_brush_size ->
        brush_size (brush (set_brush_size n c)) = n)
  /\ (forall f, (f < 0)%Q ->
        opacity (brush (set_opacity f c)) = 0%Q
        /\ hardness (brush (set_hardness f c)) = 0%Q
        /\ flow (brush (set_flow f c)) = 0%Q)
  /\ (forall f, (1 < f)%Q ->
        opacity (brush (set_opacity f c)) = 1%Q
        /\ hardness (brush (set_hardness f c)) = 1%Q
        /\ flow (brush (set_flow f c)) = 1%Q)
  /\ (forall f, (0 < f)%Q -> (f < 1)%Q ->
        opacity (brush (set_opacity f c)) = f
        /\ hardness (brush (set_hardness f c)) = f
        /\ flow (brush (set_flow f c)) = f)
  /\ brush_size (brush (set_brush_size (-5) c)) = min_brush_size
  /\ opacity (brush (set_opacity (37 # 10) c)) = 1%Q.
Proof.
  intros Hrange.
  assert (Hlow : forall f, (f < 0)%Q -> clampQ 0 1 f = 0%Q).
  { intros f Hf. unfold clampQ.
    destruct (Qle_bool f 0) eqn:E; [reflexivity|].
    exfalso. apply Qlt_le_weak, Qle_bool_iff in Hf. congruence. }
  assert (Hhigh : forall f, (1 < f)%Q -> clampQ 0 1 f = 1%Q).
  { intros f Hf. unfold clampQ.
    destruct (Qle_bool f 0) eqn:E.
    - exfalso. apply Qle_bool_iff in E.
      apply (Qlt_irrefl 1), (Qlt_le_trans _ f); [exact Hf|].
      apply (Qle_trans _ 0); [exact E | discriminate].
    - destruct (Qle_bool 1 f) eqn:E1; [reflexivity|].
      exfalso. apply Qlt_le_weak, Qle_bool_iff in Hf. congruence. }
  assert (Hmid : forall f, (0 < f)%Q -> (f < 1)%Q -> clampQ 0 1 f = f).
  { intros f Hf0 Hf1. unfold clampQ.
    destruct (Qle_bool f 0) eqn:E.
    - exfalso. apply Qle_bool_iff in E. apply (Qlt_irrefl 0), (Qlt_le_trans _ f); assumption.
    - destruct (Qle_bool 1 f) eqn:E1; [|reflexivity].
      exfalso. apply Qle_bool_iff in E1. apply (Qlt_irrefl 1), (Qle_lt_trans _ f); assumption. }
  repeat split; cbn; unfold clampZ; intros; auto; try lia.
Qed.

End CanvasFacts.

(** ** The gesture recognizer *)

Section RecognizerFacts.
Context `{PoseModel}.

Ltac by_gesture g := destruct g; try congruence; try reflexivity.

Lemma classify_threshold (r r1 : GestureRecognizer) lm f :
  detection_threshold r1 = detection_threshold r -> classify r1 lm f = classify r lm f.
Proof. intros Ht. unfold classify. rewrite Ht. reflexivity. Qed.

(** A frame classified as a gesture matches that gesture's signature:
    the pose fits and the confidence reaches the threshold. *)
Lemma classified_matches (r : GestureRecognizer) lm f (g : GestureType.t) :
  (classify r lm f).1 = g -> g <> GestureType.NONE -> matches r g lm f = true.
Proof.
  unfold classify, matches. intros Hc Hn.
  destruct (List.find (fun g0 => signature g0 lm f) precedence) as [g0|] eqn:Hfind;
    [|cbn in Hc; congruence].
  apply List.find_some in Hfind as [_ Hsig].
  destruct (Qle_bool (detection_threshold r) (confidence g0 lm f)) eqn:Hq;
    cbn in Hc; [|congruence].
  subst g0. rewrite Hsig, Hq. reflexivity.
Qed.

Lemma recognize_gesture_config (r : GestureRecognizer) lm f :
  detection_threshold (recognize_gesture r lm f).1 = detection_threshold r
  /\ debounce_window (recognize_gesture r lm f).1 = debounce_window r.
Proof.
  unfold recognize_gesture. destruct (classify r lm f) as [g c].
  destruct g; cbn; try (split; reflexivity);
    repeat case_decide; repeat case_match; cbn; split; reflexivity.
Qed.

(** The three reports of a debounced gesture. *)
Lemma recognize_gesture_debounced (r : GestureRecognizer) lm f g c :
  classify r lm f = (g, c) -> g <> GestureType.NONE -> g <> GestureType.DRAW ->
  recognize_gesture r lm f =
    let obs := take (debounce_window r) ((g, c) :: observations r) in
    if decide (last_fired r = g) then
      (set_session obs g r, (GestureType.NONE, c, GestureState.NONE))
    else if (debounce_window r <=? held g obs)%nat then
      (set_session obs g r, (g, c, GestureState.COMPLETED))
    else
      (set_session obs GestureType.NONE r, (g, c, GestureState.IN_PROGRESS)).
Proof.
  intros Hc Hn Hd. unfold recognize_gesture. rewrite Hc. by_gesture g.
Qed.

Lemma held_take (g : GestureType.t) (n : nat) (obs : list (GestureType.t * Q)) :
  held g (take n obs) = Nat.min n (held g obs).
Proof.
  revert n. induction obs as [|[g' c] rest IH]; intros [|n]; cbn; try reflexivity.
  case_decide; [rewrite IH|]; reflexivity.
Qed.

Lemma held_push (g : GestureType.t) (n : nat) c (obs : list (GestureType.t * Q)) :
  held g (take n ((g, c) :: obs)) = Nat.min n (S (held g obs)).
Proof. rewrite held_take. cbn. case_decide; [reflexivity | congruence]. Qed.

Lemma completions_cons g o outs :
  completions g (o :: outs) =
    ((if decide (report_gesture o = g /\ report_state o = GestureState.COMPLETED)
      then 1 else 0) + completions g outs)%nat.
Proof.
  unfold completions. rewrite filter_cons. case_decide; reflexivity.
Qed.

Lemma recognize_stream_cons (r : GestureRecognizer) lm f rest :
  (recognize_stream r ((lm, f) :: rest)).2
    = (recognize_gesture r lm f).2 :: (recognize_stream (recognize_gesture r lm f).1 rest).2.
Proof.
  cbn [recognize_stream]. destruct (recognize_gesture r lm f) as [r1 o]. cbn [fst snd].
  destruct (recognize_stream r1 rest). reflexivity.
Qed.

Lemma Forall_classify (g : GestureType.t) (r r1 : GestureRecognizer)
    (frames : list (Landmarks * FingerState)) :
  detection_threshold r1 = detection_threshold r ->
  Forall (fun fr => (classify r fr.1 fr.2).1 = g) frames ->
  Forall (fun fr => (classify r1 fr.1 fr.2).1 = g) frames.
Proof.
  intros Ht Hall. eapply Forall_impl; [exact Hall|]. intros [lm f] Hx.
  rewrite (classify_threshold r r1); [exact Hx | exact Ht].
Qed.

(** Once [g] has fired, frames that keep the pose report nothing. *)
Lemma held_after_firing (g : GestureType.t) frames : forall r,
  g <> GestureType.NONE -> g <> GestureType.DRAW ->
  last_fired r = g ->
  Forall (fun fr => (classify r fr.1 fr.2).1 = g) frames ->
  report_state <$> (recognize_stream r frames).2 = replicate (length frames) GestureState.NONE
  /\ forall g', completions g' (recognize_stream r frames).2 = O.
Proof.
  induction frames as [|[lm f] rest IH]; intros r Hn Hd Hfired Hall.
  - split; reflexivity.
  - apply Forall_cons in Hall as [Hfr Hrest]. cbn in Hfr.
    destruct (classify r lm f) as [g' c] eqn:Hc. cbn in Hfr; subst g'.
    rewrite recognize_stream_cons.
    rewrite (recognize_gesture_debounced _ _ _ _ _ Hc Hn Hd). cbn zeta.
    rewrite decide_True by exact Hfired. cbn [fst snd].
    set (r1 := set_session _ _ r).
    destruct (IH r1 Hn Hd) as [IHs IHc]; [reflexivity| |].
    { apply (Forall_classify _ r); [reflexivity | exact Hrest]. }
    split; [rewrite fmap_cons, IHs; reflexivity|].
    intros g'. rewrite completions_cons, IHc.
    rewrite decide_False; [reflexivity|]. cbn. intros [_ ?]; discriminate.
Qed.

(** A fresh session, and a session right after a frame of another
    pose, are at the start of a run of [g]. *)
Lemma run_start_fresh (g : GestureType.t) (threshold : Q) (window : nat) :
  g <> GestureType.NONE -> run_start g (new_recognizer threshold window).
Proof. intros Hn. unfold run_start; cbn. split; [congruence | reflexivity]. Qed.

Lemma run_start_after_other (g : GestureType.t) (r : GestureRecognizer) lm f :
  g <> GestureType.NONE -> (0 < debounce_window r)%nat ->
  (classify r lm f).1 <> g ->
  run_start g (recognize_gesture r lm f).1.
Proof.
  intros Hn Hpos Hother. unfold recognize_gesture.
  destruct (classify r lm f) as [g' c]. cbn in Hother.
  destruct (debounce_window r) as [|n] eqn:Hw; [lia|].
  destruct g'; cbn; repeat case_decide; repeat case_match; unfold run_start; cbn;
    (split; [congruence | try reflexivity; rewrite decide_False by congruence; reflexivity]).
Qed.

(** C3: a pose of a debounced gesture [g], held from the start of its
    run for at least the debounce window [N], is reported IN_PROGRESS
    on the first [N - 1] frames, COMPLETED on frame [N] and NONE on
    every later frame: COMPLETED is reported for [g] exactly once, and
    with [N = 3] on the third frame. *)
Theorem held_pose_completes_once (g : GestureType.t) (frames : list (Landmarks * FingerState))
    (r : GestureRecognizer) :
  g <> GestureType.NONE -> g <> GestureType.DRAW ->
  (0 < debounce_window r)%nat ->
  run_start g r ->
  Forall (fun fr => (classify r fr.1 fr.2).1 = g) frames ->
  (debounce_window r <= length frames)%nat ->
  report_state <$> (recognize_stream r frames).2
    = replicate (debounce_window r - 1) GestureState.IN_PROGRESS
        ++ [GestureState.COMPLETED]
        ++ replicate (length frames - debounce_window r) GestureState.NONE
  /\ completions g (recognize_stream r frames).2 = 1%nat
  /\ (debounce_window r = 3%nat ->
      (report_state <$> (recognize_stream r frames).2) !! 2%nat = Some GestureState.COMPLETED).
Proof.
  intros Hn Hd Hpos [Hfired Hheld] Hall Hlen.
  assert (Hgen : forall j r,
    held g (observations r) = j -> (j < debounce_window r)%nat ->
    last_fired r <> g ->
    Forall (fun fr => (classify r fr.1 fr.2).1 = g) frames ->
    (debounce_window r - j <= length frames)%nat ->
    report_state <$> (recognize_stream r frames).2
      = replicate (debounce_window r - 1 - j) GestureState.IN_PROGRESS
          ++ [GestureState.COMPLETED]
          ++ replicate (length frames - (debounce_window r - j)) GestureState.NONE
    /\ completions g (recognize_stream r frames).2 = 1%nat).
  { clear Hpos Hfired Hheld Hall Hlen r.
    induction frames as [|[lm f] rest IH]; intros j r Hj Hlt Hfired Hall Hlen.
    - cbn in Hlen. lia.
    - apply Forall_cons in Hall as [Hfr Hrest]. cbn in Hfr.
      destruct (classify r lm f) as [g' c] eqn:Hc. cbn in Hfr; subst g'.
      rewrite recognize_stream_cons.
      rewrite (recognize_gesture_debounced _ _ _ _ _ Hc Hn Hd). cbn zeta.
      rewrite decide_False by exact Hfired.
      rewrite held_push, Hj. rewrite length_cons in Hlen |- *.
      destruct (Nat.leb_spec (debounce_window r) (Nat.min (debounce_window r) (S j)))
        as [Hfire|Hwait]; cbn [fst snd].
      + (* the window is full: this frame fires *)
        set (r1 := set_session _ _ r).
        destruct (held_after_firing g rest r1 Hn Hd) as [Hs Hc0]; [reflexivity| |].
        { apply (Forall_classify _ r); [reflexivity | exact Hrest]. }
        replace (debounce_window r - 1 - j)%nat with O by lia.
        replace (S (length rest) - (debounce_window r - j))%nat with (length rest) by lia.
        split; [rewrite fmap_cons, Hs; reflexivity|].
        rewrite completions_cons, Hc0, decide_True; [reflexivity|]. split; reflexivity.
      + (* still a candidate *)
        set (r1 := set_session _ _ r).
        destruct (IH (S j) r1) as [Hs Hc1].
        * subst r1; cbn [observations set_session debounce_window].
          rewrite held_push, Hj. lia.
        * subst r1; cbn [set_session debounce_window]. lia.
        * subst r1; cbn [set_session last_fired]. congruence.
        * apply (Forall_classify _ r); [reflexivity | exact Hrest].
        * subst r1; cbn [set_session debounce_window]. lia.
        * subst r1. cbn [set_session debounce_window] in Hs.
          replace (debounce_window r - 1 - j)%nat
            with (S (debounce_window r - 1 - S j)) by lia.
          replace (S (length rest) - (debounce_window r - j))%nat
            with (length rest - (debounce_window r - S j))%nat by lia.
          split; [rewrite fmap_cons, Hs; reflexivity|].
          rewrite completions_cons, Hc1, decide_False; [reflexivity|].
          cbn. intros [_ ?]; discriminate. }
  destruct (Hgen O r Hheld Hpos Hfired Hall) as [Hs Hc]; [lia|].
  rewrite !Nat.sub_0_r in Hs.
  split; [exact Hs|]. split; [exact Hc|].
  intros H3. rewrite Hs, H3. reflexivity.
Qed.

(** C4: a frame that matches the DRAW signature is reported as DRAW,
    IN_PROGRESS, on that very frame, whatever the session holds; a
    stream of such frames gets that report on every frame and never a
    COMPLETED one. *)
Theorem draw_reports_in_progress (r : GestureRecognizer)
    (frames : list (Landmarks * FingerState)) :
  Forall (fun fr => matches r GestureType.DRAW fr.1 fr.2 = true) frames ->
  (forall lm f, (lm, f) ∈ frames ->
     (recognize_gesture r lm f).2
       = (GestureType.DRAW, confidence GestureType.DRAW lm f, GestureState.IN_PROGRESS))
  /\ (recognize_stream r frames).2
       = (fun fr => (GestureType.DRAW, confidence GestureType.DRAW fr.1 fr.2,
                     GestureState.IN_PROGRESS)) <$> frames
  /\ forall g, completions g (recognize_stream r frames).2 = O.
Proof.
  assert (Hone : forall r lm f, matches r GestureType.DRAW lm f = true ->
    recognize_gesture r lm f
      = (set_session (take (debounce_window r)
                        ((GestureType.DRAW, confidence GestureType.DRAW lm f) :: observations r))
                     GestureType.NONE r,
         (GestureType.DRAW, confidence GestureType.DRAW lm f, GestureState.IN_PROGRESS))).
  { intros r0 lm f Hm. unfold matches in Hm. apply andb_prop in Hm as [Hsig Hconf].
    unfold recognize_gesture, classify. cbn. rewrite Hsig, Hconf. reflexivity. }
  intros Hall. split.
  - intros lm f Hin. rewrite Forall_forall in Hall.
    rewrite (Hone r lm f (Hall (lm, f) Hin)). reflexivity.
  - revert r Hall. induction frames as [|[lm f] rest IH]; intros r Hall.
    + split; reflexivity.
    + apply Forall_cons in Hall as [Hfr Hrest]. cbn in Hfr.
      rewrite recognize_stream_cons, (Hone r lm f Hfr). cbn [fst snd].
      set (r1 := set_session _ _ r).
      destruct (IH r1) as [Hs Hc].
      { eapply Forall_impl; [exact Hrest|]. intros [lm' f'] Hx. exact Hx. }
      split; [rewrite fmap_cons, Hs; reflexivity|].
      intros g. rewrite completions_cons, Hc, decide_False; [reflexivity|].
      cbn. intros [_ ?]; discriminate.
Qed.

End RecognizerFacts.

(** ** The application loop *)

Section AppFacts.
Context `{Rasterizer} `{PyBuiltins}.

Lemma app_eta (a : GestureArtApp) :
  {| canvas := canvas a; last_draw_state := last_draw_state a;
     mouse_point := mouse_point a; mouse_click := mouse_click a;
     trace := trace a |} = a.
Proof. destruct a; reflexivity. Qed.

Lemma wait_key_canvas (fr : Frame) (a : GestureArtApp) :
  canvas (wait_key fr a) = canvas a
  /\ trace (wait_key fr a) = trace a
  /\ last_draw_state (wait_key fr a) = last_draw_state a.
Proof.
  unfold wait_key. revert a.
  induction (mouse_events fr) as [|[[event x] y] evs IH]; intros a; cbn [fold_left].
  - repeat split.
  - destruct (IH (mouse_callback (event, x, y) a)) as (Hc & Ht & Hl).
    rewrite Hc, Ht, Hl. repeat split.
Qed.

(** C6 (as amended): when a pass reads the quit key the loop ends
    there and nothing more is asked of the canvas: the canvas, and so
    its active stroke and its history, and the trace are those the
    frame's own processing left; an in-flight stroke stays active and
    uncommitted. *)
Theorem quit_leaves_canvas_as_is (fr : Frame) (rest : list Frame) (a a1 : GestureArtApp) :
  ret fr = true ->
  frame_body fr a = (inr tt, a1) ->
  quit_key (key fr) = true ->
  (run (fr :: rest) a).1 = Quit
  /\ canvas (run (fr :: rest) a).2 = canvas a1
  /\ active_stroke (canvas (run (fr :: rest) a).2) = active_stroke (canvas a1)
  /\ history (canvas (run (fr :: rest) a).2) = history (canvas a1)
  /\ trace (run (fr :: rest) a).2 = trace a1.
Proof.
  intros Hret Hbody Hq. cbn [run]. unfold loop_pass.
  rewrite Hret, Hbody, Hq. cbn.
  destruct (wait_key_canvas fr a1) as (Hc & Ht & _).
  rewrite Hc, Ht. repeat split.
Qed.

(** C7: a [brush_selected] command whose name, in upper case, is no
    member of [BrushType] raises nothing, prints the complaint and
    leaves the canvas, with its brush configuration, as it was. *)
Theorem unknown_brush_name_ignored (fr : Frame) (d : gmap string PyVal) (name : string)
    (a : GestureArtApp) :
  interaction fr = Some d ->
  d !! "type" = Some (VStr "brush_selected") ->
  d !! "name" = Some (VStr name) ->
  member (upper name) BrushType_members = None ->
  on_interaction fr a =
    (inr tt,
     {| canvas := canvas a; last_draw_state := last_draw_state a;
        mouse_point := mouse_point a; mouse_click := mouse_click a;
        trace := trace a ++ [ev_print ("Invalid brush name: " ++ name)] |})
  /\ brush (canvas (on_interaction fr a).2) = brush (canvas a).
Proof.
  intros Hi Hty Hname Hmem.
  assert (Hrun : on_interaction fr a = emit (ev_print ("Invalid brush name: " ++ name)) a).
  { unfold on_interaction. rewrite Hi.
    destruct (decide (d = ∅)) as [->|_]; [rewrite lookup_empty in Hty; discriminate|].
    unfold py_get. rewrite Hty. cbn.
    unfold bind, py_item. rewrite Hname. cbn. rewrite Hmem. reflexivity. }
  rewrite Hrun. split; reflexivity.
Qed.

Lemma index_lookup {A} `{EqDecision A} (l : list A) (i : nat) (x : A) :
  NoDup l -> l !! i = Some x -> index l x = Some i.
Proof.
  intros Hnd. revert i. induction Hnd as [|y rest Hnotin Hnd IH]; intros i Hi.
  - rewrite lookup_nil in Hi. discriminate.
  - destruct i as [|j]; cbn in Hi |- *.
    + injection Hi as ->. rewrite decide_True by reflexivity. reflexivity.
    + rewrite decide_False.
      * rewrite (IH j Hi). reflexivity.
      * intros ->. apply Hnotin. eapply list_elem_of_lookup_2; eauto.
Qed.

Lemma seal_no_stroke (c : CanvasEngine) : active_stroke (seal c) = None.
Proof. unfold seal. destruct (active_stroke c) eqn:Ha; [reflexivity | exact Ha]. Qed.

Lemma seal_brush (c : CanvasEngine) : brush (seal c) = brush c.
Proof. unfold seal. destruct (active_stroke c); reflexivity. Qed.

(** What the pen-up of lines 53-55 leaves. *)
Lemma pen_up_run (a : GestureArtApp) :
  pen_up a =
    (inr tt,
     if last_draw_state a then
       {| canvas := seal (canvas a); last_draw_state := false;
          mouse_point := mouse_point a; mouse_click := mouse_click a;
          trace := trace a ++ [ev_canvas (call_draw None None None)] |}
     else a).
Proof. unfold pen_up, bind, get. destruct (last_draw_state a); reflexivity. Qed.

Lemma pen_up_brush (a : GestureArtApp) : brush (canvas (pen_up a).2) = brush (canvas a).
Proof.
  rewrite pen_up_run. cbn. destruct (last_draw_state a); [apply seal_brush | reflexivity].
Qed.

Lemma on_gesture_not_draw (a : GestureArtApp) g st p :
  g <> GestureType.DRAW ->
  on_gesture g st p a = dispatch_gesture g st (pen_up a).2.
Proof.
  intros Hg. unfold on_gesture. rewrite decide_False by exact Hg.
  unfold bind. rewrite pen_up_run. reflexivity.
Qed.

(** One TOOL_CHANGE from the brush at position [i] of the enumeration. *)
Lemma next_brush_at (a : GestureArtApp) (i : nat) :
  NoDup brushes ->
  brushes !! i = Some (brush_type (brush (canvas a))) ->
  exists b, brushes !! ((i + 1) mod length brushes)%nat = Some b
    /\ dispatch_gesture GestureType.TOOL_CHANGE GestureState.COMPLETED a
        = call (call_set_brush b) a.
Proof.
  intros Hnd Hi.
  assert (Hlt : (i < length brushes)%nat) by (eapply lookup_lt_Some; eauto).
  destruct (lookup_lt_is_Some_2 brushes ((i + 1) mod length brushes)%nat) as [b Hb].
  { apply Nat.mod_upper_bound. lia. }
  exists b. split; [exact Hb|].
  unfold dispatch_gesture. rewrite decide_True by reflexivity.
  unfold next_brush, bind, get. rewrite (index_lookup _ _ _ Hnd Hi), Hb. reflexivity.
Qed.

Lemma tool_change_iter (a : GestureArtApp) (i k : nat) :
  NoDup brushes ->
  brushes !! i = Some (brush_type (brush (canvas a))) ->
  brushes !! ((i + k) mod length brushes)%nat
    = Some (brush_type (brush (canvas (Nat.iter k tool_change a)))).
Proof.
  intros Hnd Hi.
  assert (Hlt : (i < length brushes)%nat) by (eapply lookup_lt_Some; eauto).
  induction k as [|k IH].
  - rewrite Nat.add_0_r, Nat.mod_small by exact Hlt. exact Hi.
  - rewrite Nat.iter_succ.
    destruct (next_brush_at (Nat.iter k tool_change a) _ Hnd IH) as (b & Hb & Hrun).
    unfold tool_change at 1. rewrite Hrun. cbn.
    rewrite <- Hb. f_equal.
    rewrite Nat.Div0.add_mod_idemp_l. f_equal. lia.
Qed.

(** C9: a completed TOOL_CHANGE sets the brush that follows the
    current one in the order of the [BrushType] enumeration, the first
    after the last, be it dispatched alone or through lines 49-70 of a
    frame; [k] of them move [k] places round the enumeration, so every
    brush type is met within one round. *)
Theorem tool_change_cycles (a : GestureArtApp) (i : nat) (p : Point) :
  NoDup brushes ->
  brushes !! i = Some (brush_type (brush (canvas a))) ->
  (exists b,
     brushes !! ((i + 1) mod length brushes)%nat = Some b
     /\ dispatch_gesture GestureType.TOOL_CHANGE GestureState.COMPLETED a
         = (inr tt,
            {| canvas := set_brush b (canvas a); last_draw_state := last_draw_state a;
               mouse_point := mouse_point a; mouse_click := mouse_click a;
               trace := trace a ++ [ev_canvas (call_set_brush b)] |})
     /\ brush_type (brush (canvas (tool_change a))) = b
     /\ brush_type (brush (canvas
           (on_gesture GestureType.TOOL_CHANGE GestureState.COMPLETED p a).2)) = b)
  /\ (forall k,
        brushes !! ((i + k) mod length brushes)%nat
          = Some (brush_type (brush (canvas (Nat.iter k tool_change a)))))
  /\ (forall b, b ∈ brushes ->
        exists k, (k < length brushes)%nat
          /\ brush_type (brush (canvas (Nat.iter k tool_change a))) = b).
Proof.
  intros Hnd Hi.
  assert (Hlt : (i < length brushes)%nat) by (eapply lookup_lt_Some; eauto).
  split; [|split].
  - destruct (next_brush_at a i Hnd Hi) as (b & Hb & Hrun).
    exists b. split; [exact Hb|]. split; [rewrite Hrun; reflexivity|].
    split; [unfold tool_change; rewrite Hrun; reflexivity|].
    rewrite on_gesture_not_draw by discriminate.
    destruct (next_brush_at (pen_up a).2 i Hnd) as (b1 & Hb1 & Hrun1).
    { rewrite pen_up_brush. exact Hi. }
    rewrite Hrun1. cbn. congruence.
  - intros k. apply tool_change_iter; assumption.
  - intros b Hb. apply list_elem_of_lookup in Hb as [j Hj].
    assert (Hjlt : (j < length brushes)%nat) by (eapply lookup_lt_Some; eauto).
    exists (if (i <=? j)%nat then (j - i)%nat else (j + length brushes - i)%nat).
    pose proof (tool_change_iter a i
      (if (i <=? j)%nat then (j - i)%nat else (j + length brushes - i)%nat) Hnd Hi) as Hk.
    destruct (Nat.leb_spec i j) as [Hle|Hgt].
    + split; [lia|].
      replace (i + (j - i))%nat with j in Hk by lia.
      rewrite Nat.mod_small in Hk by exact Hjlt. congruence.
    + split; [lia|].
      replace (i + (j + length brushes - i))%nat with (j + 1 * length brushes)%nat in Hk by lia.
      rewrite Nat.Div0.mod_add, Nat.mod_small in Hk by exact Hjlt. congruence.
Qed.

(** *** What a pass adds to the trace *)

Lemma bind_pure_l {A B} (x : A) (k : A -> M B) : bind (pure x) k = k x.
Proof. reflexivity. Qed.

Lemma adds_pure {A} (P : Event -> Prop) (x : A) : adds P (pure x).
Proof. intros a. exists []. rewrite app_nil_r. split; [reflexivity | constructor]. Qed.

Lemma adds_raise {A} (P : Event -> Prop) (e : PyExn) : adds P (raise (A := A) e).
Proof. intros a. exists []. rewrite app_nil_r. split; [reflexivity | constructor]. Qed.

Lemma adds_get (P : Event -> Prop) : adds P get.
Proof. intros a. exists []. rewrite app_nil_r. split; [reflexivity | constructor]. Qed.

Lemma adds_emit (P : Event -> Prop) (e : Event) : P e -> adds P (emit e).
Proof. intros He a. exists [e]. split; [reflexivity | repeat constructor; exact He]. Qed.

Lemma adds_call (P : Event -> Prop) (k : CanvasCall) : P (ev_canvas k) -> adds P (call k).
Proof. intros He a. exists [ev_canvas k]. split; [reflexivity | repeat constructor; exact He]. Qed.

Lemma adds_set_last_draw_state (P : Event -> Prop) (b : bool) :
  adds P (set_last_draw_state b).
Proof. intros a. exists []. rewrite app_nil_r. split; [reflexivity | constructor]. Qed.

Lemma adds_bind {A B} (P : Event -> Prop) (m : M A) (k : A -> M B) :
  adds P m -> (forall x, adds P (k x)) -> adds P (bind m k).
Proof.
  intros Hm Hk a. unfold bind.
  destruct (Hm a) as (evs & Ht & Hp).
  destruct (m a) as [[e|x] a1]; cbn in Ht.
  - exists evs. split; assumption.
  - destruct (Hk x a1) as (evs1 & Ht1 & Hp1).
    exists (evs ++ evs1). rewrite Ht1, Ht, app_assoc.
    split; [reflexivity | apply Forall_app; split; assumption].
Qed.

Lemma adds_consume_click (P : Event -> Prop) : adds P consume_click.
Proof. intros a. exists []. rewrite app_nil_r. split; [reflexivity | constructor]. Qed.

Ltac adds_step :=
  first [ apply adds_pure | apply adds_raise | apply adds_get
        | apply adds_set_last_draw_state | apply adds_consume_click
        | apply adds_call; cbn; solve [auto]
        | apply adds_emit; cbn; solve [auto]
        | apply adds_bind; [|intros ?] ].

Ltac adds_auto := repeat first [ adds_step | case_match | case_decide ].

Lemma adds_dispatch_gesture (fr : Frame) g st :
  adds (fingertip_draw fr) (dispatch_gesture g st).
Proof. unfold dispatch_gesture, next_brush. adds_auto. Qed.

Lemma adds_pen_up (fr : Frame) : adds (fingertip_draw fr) pen_up.
Proof. unfold pen_up. adds_auto. Qed.

Lemma adds_ui_phase (fr : Frame) g p : adds (fingertip_draw fr) (ui_phase fr g p).
Proof.
  unfold ui_phase, on_interaction, py_item, select_brush, change_property, guarded, convert.
  adds_auto; simplify_eq; adds_auto.
Qed.

(** *** What holds whenever a pass begins *)

Lemma lifts_pen_no_stroke (k : CanvasCall) (c : CanvasEngine) :
  lifts_pen k -> active_stroke c = None -> active_stroke (exec_call k c) = None.
Proof.
  intros Hk Hc. destruct k as [[pt|] pr d| | | | | |v| | | |]; cbn in Hk |- *;
    try contradiction; try exact Hc.
  - apply seal_no_stroke.
  - unfold undo. repeat case_match; cbn; exact Hc.
  - unfold redo. repeat case_match; cbn; exact Hc.
  - destruct v; cbn; exact Hc.
Qed.

Lemma commit_full_pressure (e : HistoryEntry) (c : CanvasEngine) :
  match edit e with StrokeCommitted s => full_pressure_stroke s | Cleared => True end ->
  full_pressure c -> full_pressure (commit e c).
Proof.
  intros He [Ha Hh]. split; [exact Ha|]. cbn.
  apply Forall_app. split; [apply Forall_take; exact Hh | repeat constructor; exact He].
Qed.

Lemma seal_full_pressure (c : CanvasEngine) : full_pressure c -> full_pressure (seal c).
Proof.
  intros Hc. unfold seal. destruct (active_stroke c) as [s|] eqn:Hs; [|exact Hc].
  apply commit_full_pressure.
  - cbn. exact (proj1 Hc s Hs).
  - split; [intros ? [=] | exact (proj2 Hc)].
Qed.

Lemma swap_full_pressure (c : CanvasEngine) (k n : nat) (e : HistoryEntry) (r : Raster) :
  history c !! k = Some e -> full_pressure c ->
  full_pressure (set_raster r (set_history (<[k := with_snapshot (raster c) e]> (history c)) n c)).
Proof.
  intros He [Ha Hh]. split; [exact Ha|]. cbn.
  apply Forall_insert; [exact Hh|]. cbn.
  rewrite Forall_lookup in Hh. exact (Hh k e He).
Qed.

(** A call keeps the strokes at full pressure if it lifts the pen or
    puts a point down at pressure 1.0. *)
Lemma exec_call_full_pressure (k : CanvasCall) (c : CanvasEngine) :
  lifts_pen k \/ (exists pt d, k = call_draw (Some pt) (Some 1%Q) d) ->
  full_pressure c -> full_pressure (exec_call k c).
Proof.
  intros Hk Hc.
  destruct Hk as [Hk|(pt & d & ->)].
  - destruct k as [[pt|] pr d| | | | | |v| | | |]; cbn in Hk |- *;
      try contradiction; try exact Hc.
    + apply seal_full_pressure. exact Hc.
    + unfold clear.
      apply (commit_full_pressure {| edit := Cleared; snapshot := raster c |} c I) in Hc.
      destruct Hc as [Ha Hh]. split; assumption.
    + unfold undo. destruct (cursor c) as [|n]; [exact Hc|].
      destruct (history c !! n) as [e|] eqn:He; [|exact Hc].
      apply swap_full_pressure; assumption.
    + unfold redo. destruct (history c !! cursor c) as [e|] eqn:He; [|exact Hc].
      apply swap_full_pressure; assumption.
    + destruct v; cbn; exact Hc.
  - cbn. destruct pt as [x y]. destruct (default true d).
    + destruct Hc as [Ha Hh]. unfold draw.
      destruct (active_stroke c) as [s|] eqn:Hs; (split; [|exact Hh]); cbn.
      * intros ? [= <-]. cbn. apply Forall_app. split; [exact (Ha s eq_refl)|].
        repeat constructor.
      * intros ? [= <-]. cbn. repeat constructor.
    + cbn. apply seal_full_pressure. exact Hc.
Qed.

Lemma keeps_pure {A} J (x : A) : keeps J (pure x).
Proof. intros a Ha. exact Ha. Qed.

Lemma keeps_raise {A} J (e : PyExn) : keeps J (raise (A := A) e).
Proof. intros a Ha. exact Ha. Qed.

Lemma keeps_get J : keeps J get.
Proof. intros a Ha. exact Ha. Qed.

Lemma keeps_bind {A B} J (m : M A) (k : A -> M B) :
  keeps J m -> (forall x, keeps J (k x)) -> keeps J (bind m k).
Proof.
  intros Hm Hk a Ha. unfold bind. specialize (Hm a Ha).
  destruct (m a) as [[e|x] a1]; cbn in Hm |- *; [exact Hm | exact (Hk x a1 Hm)].
Qed.

Lemma keeps_emit (e : Event) : keeps loop_invariant (emit e).
Proof. intros a Ha. exact Ha. Qed.

Lemma keeps_consume_click : keeps loop_invariant consume_click.
Proof. intros a Ha. exact Ha. Qed.

Lemma keeps_call (k : CanvasCall) : lifts_pen k -> keeps loop_invariant (call k).
Proof.
  intros Hk a [Hs Hp]. split.
  - intros Hl. cbn in Hl |- *. apply lifts_pen_no_stroke; [exact Hk | exact (Hs Hl)].
  - cbn. apply exec_call_full_pressure; [left; exact Hk | exact Hp].
Qed.

Ltac keeps_step :=
  first [ apply keeps_pure | apply keeps_raise | apply keeps_get
        | apply keeps_emit | apply keeps_consume_click
        | apply keeps_call; exact I
        | apply keeps_bind; [|intros ?] ].

Ltac keeps_auto := repeat first [ keeps_step | case_match | case_decide ].

Lemma keeps_dispatch_gesture g st : keeps loop_invariant (dispatch_gesture g st).
Proof. unfold dispatch_gesture, next_brush. keeps_auto. Qed.

Lemma keeps_ui_phase (fr : Frame) g p : keeps loop_invariant (ui_phase fr g p).
Proof.
  unfold ui_phase, on_interaction, py_item, select_brush, change_property, guarded, convert.
  keeps_auto; simplify_eq; keeps_auto.
Qed.

Lemma keeps_pen_up : keeps loop_invariant pen_up.
Proof.
  intros a [Hs Hp]. rewrite pen_up_run. cbn.
  destruct (last_draw_state a); [|split; assumption].
  split; [intros _; apply seal_no_stroke | cbn; apply seal_full_pressure; exact Hp].
Qed.

Lemma keeps_on_gesture g st p : keeps loop_invariant (on_gesture g st p).
Proof.
  unfold on_gesture. case_decide.
  - intros a [_ Hp]. split; [intros Hl; cbn in Hl; discriminate|].
    cbn [bind call set_last_draw_state snd canvas].
    apply (exec_call_full_pressure (call_draw (Some p) (Some 1%Q) (Some true)));
      [right; eauto | exact Hp].
  - apply keeps_bind; [apply keeps_pen_up | intros _; apply keeps_dispatch_gesture].
Qed.

Lemma keeps_frame_body (fr : Frame) : keeps loop_invariant (frame_body fr).
Proof.
  unfold frame_body.
  apply keeps_bind; [|intros ?; apply keeps_ui_phase].
  unfold hand_phase, fingertip. keeps_step; [keeps_step|].
  case_match; [|keeps_step].
  destruct (recognized fr) as [[g conf] st].
  keeps_step; [keeps_auto|]. keeps_step; [apply keeps_on_gesture | keeps_step].
Qed.

Lemma reachable_invariant (a : GestureArtApp) : reachable a -> loop_invariant a.
Proof.
  induction 1 as [w h|fr a a1 Hreach IH Hpass].
  - split; [intros _; reflexivity|]. split; [intros ? [=] | constructor].
  - unfold loop_pass in Hpass.
    destruct (ret fr); cbn in Hpass; [|discriminate].
    pose proof (keeps_frame_body fr a IH) as Hbody.
    destruct (frame_body fr a) as [[e|[]] a2]; [discriminate|].
    destruct (quit_key (key fr)); [discriminate|].
    injection Hpass as <-.
    destruct (wait_key_canvas fr a2) as (Hc & _ & Hl).
    unfold loop_invariant, sealed_unless_drawing. rewrite Hc, Hl. exact Hbody.
Qed.

(** C10: whatever a pass of the loop does, a draw call of it that
    carries a point carries the index fingertip of that frame,
    [(landmarks[8][1], landmarks[8][2])], with [pressure=1.0] and
    [is_drawing=True]; a frame recognised as DRAW makes exactly that
    call, whatever the landmarks and the confidence are; and so, at the
    start of every pass, each point of each stroke on the canvas has
    pressure 1.0. *)
Theorem draw_calls_use_fingertip_at_full_pressure (fr : Frame) (a : GestureArtApp) :
  (exists evs,
     trace (frame_body fr a).2 = trace a ++ evs
     /\ forall point pressure is_drawing,
          ev_canvas (call_draw (Some point) pressure is_drawing) ∈ evs ->
          pressure = Some 1%Q /\ is_drawing = Some true
          /\ exists row, landmarks fr !! 8%nat = Some row
               /\ row !! 1%nat = Some point.1 /\ row !! 2%nat = Some point.2)
  /\ (forall conf state row x y,
        hands_detected fr = true -> found fr = true ->
        recognized fr = (GestureType.DRAW, conf, state) ->
        landmarks fr !! 8%nat = Some row -> row !! 1%nat = Some x -> row !! 2%nat = Some y ->
        hand_phase fr a =
          (inr (GestureType.DRAW, Some (x, y)),
           {| canvas := draw (Some (x, y)) 1 true (canvas a); last_draw_state := true;
              mouse_point := mouse_point a; mouse_click := mouse_click a;
              trace := trace a ++ [ev_canvas (call_draw (Some (x, y)) (Some 1%Q) (Some true))] |}))
  /\ (reachable a -> full_pressure (canvas a)).
Proof.
  split; [|split; [|intros Hr; exact (proj2 (reachable_invariant a Hr))]].
  - assert (Hadds : adds (fingertip_draw fr) (frame_body fr)).
    { unfold frame_body. adds_step; [|apply adds_ui_phase].
      unfold hand_phase, fingertip. adds_step; [adds_step|].
      case_match; [|adds_step].
      destruct (recognized fr) as [[g conf] st].
      destruct (landmarks fr !! 8%nat) as [row|] eqn:Hrow; [|adds_auto].
      destruct (row !! 1%nat) as [px|] eqn:Hx; [|adds_auto].
      destruct (row !! 2%nat) as [py|] eqn:Hy; [|adds_auto].
      rewrite bind_pure_l. adds_step; [|adds_step].
      unfold on_gesture. case_decide.
      - adds_step; [|adds_step]. apply adds_call. cbn.
        split; [reflexivity|]. split; [reflexivity|]. exists row. auto.
      - adds_step; [apply adds_pen_up | apply adds_dispatch_gesture]. }
    destruct (Hadds a) as (evs & Ht & Hp). exists evs. split; [exact Ht|].
    intros [x y] pressure is_drawing Hin.
    rewrite Forall_forall in Hp. exact (Hp _ Hin).
  - intros conf state row x y Hh Hf Hrec Hrow Hx Hy.
    unfold hand_phase, bind, get. rewrite Hh, Hf, Hrec. cbn.
    unfold fingertip. rewrite Hrow, Hx, Hy. reflexivity.
Qed.

(** C8: in a frame whose gesture is not DRAW, the command of the
    gesture runs on what the pen-up of lines 53-55 leaves, and there
    the canvas has no stroke in progress; after DRAW frames
    ([last_draw_state] set) that pen-up is the call [draw(None)], which
    comes before anything the command asks of the canvas. *)
Theorem gesture_command_after_pen_up (a : GestureArtApp) (gesture : GestureType.t)
    (state : GestureState.t) (p : Point) :
  reachable a ->
  gesture <> GestureType.DRAW ->
  on_gesture gesture state p a = dispatch_gesture gesture state (pen_up a).2
  /\ active_stroke (canvas (pen_up a).2) = None
  /\ last_draw_state (pen_up a).2 = false
  /\ (last_draw_state a = true ->
      canvas (pen_up a).2 = exec_call (call_draw None None None) (canvas a)
      /\ trace (pen_up a).2 = trace a ++ [ev_canvas (call_draw None None None)]
      /\ exists evs,
           trace (on_gesture gesture state p a).2
             = trace a ++ ev_canvas (call_draw None None None) :: evs
           /\ Forall (fun e => forall k, e = ev_canvas k -> lifts_pen k) evs).
Proof.
  intros Hreach Hg.
  pose proof (on_gesture_not_draw a gesture state p Hg) as Hrun.
  split; [exact Hrun|].
  pose proof (proj1 (keeps_pen_up a (reachable_invariant a Hreach))) as Hsealed.
  assert (Hflag : last_draw_state (pen_up a).2 = false).
  { rewrite pen_up_run. cbn. destruct (last_draw_state a) eqn:Hl; [reflexivity | exact Hl]. }
  split; [exact (Hsealed Hflag)|]. split; [exact Hflag|].
  intros Hl. rewrite Hrun. rewrite pen_up_run, Hl. cbn [snd canvas trace].
  split; [reflexivity|]. split; [reflexivity|].
  assert (Hadds : adds (fun e => forall k, e = ev_canvas k -> lifts_pen k)
                       (dispatch_gesture gesture state)).
  { unfold dispatch_gesture, next_brush.
    repeat first [ apply adds_pure | apply adds_raise | apply adds_get
                 | apply adds_call; intros ? [= <-]; exact I
                 | apply adds_bind; [|intros ?]
                 | case_match | case_decide ]. }
  match goal with |- context [dispatch_gesture gesture state ?s] =>
    destruct (Hadds s) as (evs & Ht & Hp) end.
  exists evs. split; [|exact Hp].
  rewrite Ht. cbn [trace]. rewrite <- app_assoc. reflexivity.
Qed.

(** *** The loop as a whole *)

(** X1: Only the low byte of what [cv2.waitKey] returns decides whether
    the loop is left: the key code of [q] modulo 256. *)
Theorem quit_key_low_byte (k : Z) : quit_key k = true <-> k mod 256 = 113.
Proof.
  unfold quit_key. change 255 with (Z.ones 8). rewrite Z.land_ones by lia.
  change (2 ^ 8) with 256. change (Z.of_nat (nat_of_ascii "q")) with 113.
  apply Z.eqb_eq.
Qed.

Lemma wait_key_click (fr : Frame) (a : GestureArtApp) :
  mouse_click (wait_key fr a) = mouse_click a || existsb pressed (mouse_events fr).
Proof.
  unfold wait_key. revert a.
  induction (mouse_events fr) as [|[[event x] y] evs IH]; intros a.
  - cbn. rewrite orb_false_r. reflexivity.
  - cbn [fold_left existsb]. rewrite IH. unfold pressed at 2. cbn.
    destruct (event =? EVENT_LBUTTONDOWN), (mouse_click a); reflexivity.
Qed.

(** X2: The mouse events of one [waitKey]: the click is latched by any
    press among them and the point is that of the last event. *)
Theorem wait_key_mouse (fr : Frame) (a : GestureArtApp) :
  mouse_click (wait_key fr a) = mouse_click a || existsb pressed (mouse_events fr)
  /\ mouse_point (wait_key fr a)
     = match last (mouse_events fr) with
       | Some (_, x, y) => Some (x, y)
       | None => mouse_point a
       end.
Proof.
  unfold wait_key. revert a.
  induction (mouse_events fr) as [|[[event x] y] evs IH]; intros a.
  - cbn. rewrite orb_false_r. split; reflexivity.
  - cbn [fold_left existsb]. destruct (IH (mouse_callback (event, x, y) a)) as [Hc Hp].
    rewrite Hc, Hp. split.
    + unfold pressed at 2. cbn. destruct (event =? EVENT_LBUTTONDOWN), (mouse_click a);
        reflexivity.
    + destruct evs as [|ev evs]; [reflexivity|].
      rewrite last_cons_cons.
      destruct (last (ev :: evs)) as [[[? ?] ?]|] eqn:E; [reflexivity|].
      apply last_None in E. discriminate.
Qed.

(** X3: A click lives for one pass: a pass that raises nothing consumes
    the click it began with, used or not, and ends with a click
    exactly if the button was pressed during its [waitKey]. *)
Theorem click_lives_one_pass (fr : Frame) (a : GestureArtApp) :
  ret fr = true ->
  (frame_body fr a).1 = inr tt ->
  mouse_click (frame_body fr a).2 = false
  /\ mouse_click (loop_pass fr a).2 = existsb pressed (mouse_events fr).
Proof.
  intros Hret Hok.
  assert (Hbody : mouse_click (frame_body fr a).2 = false).
  { revert Hok. unfold frame_body, bind.
    destruct (hand_phase fr a) as [[e|r] a1]; [discriminate|].
    unfold ui_phase, bind, get, emit.
    match goal with |- context [on_interaction fr ?s] =>
      destruct (on_interaction fr s) as [[e|[]] a2] end; [discriminate|].
    reflexivity. }
  split; [exact Hbody|].
  unfold loop_pass. rewrite Hret. cbn [negb].
  destruct (frame_body fr a) as [[e|[]] a1]; [discriminate|]. cbn in Hbody.
  pose proof (wait_key_click fr a1) as Hc.
  destruct (quit_key (key fr)); cbn; rewrite Hc, Hbody; reflexivity.
Qed.

Lemma hand_away_pass (fr : Frame) (a : GestureArtApp) :
  hand_away fr ->
  loop_pass fr a =
    (None,
     wait_key fr
       {| canvas := canvas a; last_draw_state := last_draw_state a;
          mouse_point := mouse_point a; mouse_click := false;
          trace := trace a ++ [ev_handle_interaction (mouse_point a) (mouse_click a)] |}).
Proof.
  intros (Hret & Hno & Hint & Hq).
  unfold loop_pass. rewrite Hret, Hq. cbn [negb].
  unfold frame_body, bind, hand_phase, get. rewrite Hno.
  unfold pure, ui_phase, bind, get, emit, on_interaction. cbn. rewrite Hint. reflexivity.
Qed.

(** X5: While no hand is found (and the UI has no command) the loop asks
    nothing of the canvas and keeps [last_draw_state]: a stroke in
    progress is not sealed by the hand going away, each such pass only
    queries the UI. *)
Theorem hand_away_keeps_stroke_open (gap rest : list Frame) (a : GestureArtApp) :
  Forall hand_away gap ->
  exists a1,
    run (gap ++ rest) a = run rest a1
    /\ canvas a1 = canvas a
    /\ last_draw_state a1 = last_draw_state a
    /\ exists evs, trace a1 = trace a ++ evs /\ Forall is_query evs
                   /\ length evs = length gap.
Proof.
  revert a. induction gap as [|fr gap IH]; intros a Hall.
  - exists a. cbn. repeat split; try reflexivity.
    exists []. rewrite app_nil_r. repeat split; constructor.
  - apply Forall_cons in Hall as [Hfr Hgap].
    cbn [app run]. rewrite (hand_away_pass fr a Hfr).
    match goal with |- context [wait_key fr ?s] => set (a0 := s) end.
    destruct (wait_key_canvas fr a0) as (Hc & Ht & Hl).
    destruct (IH (wait_key fr a0) Hgap) as (a1 & Hrun & Hc1 & Hl1 & evs & Ht1 & Hq & Hlen).
    exists a1. split; [exact Hrun|].
    split; [rewrite Hc1, Hc; reflexivity|].
    split; [rewrite Hl1, Hl; reflexivity|].
    exists (ev_handle_interaction (mouse_point a) (mouse_click a) :: evs).
    split; [rewrite Ht1, Ht; subst a0; cbn; rewrite <- app_assoc; reflexivity|].
    split; [constructor; [exact I | exact Hq] | cbn; rewrite Hlen; reflexivity].
Qed.

(** X6: A hand with fewer than nine landmarks, or whose ninth landmark has
    fewer than three entries, ends the session with an [IndexError]
    before the pass has done anything, whatever gesture was
    recognised. *)
Theorem short_landmarks_end_session (fr : Frame) (rest : list Frame) (a : GestureArtApp) :
  ret fr = true -> hands_detected fr = true -> found fr = true ->
  (length (landmarks fr) <= 8)%nat
    \/ (exists row, landmarks fr !! 8%nat = Some row /\ (length row <= 2)%nat) ->
  run (fr :: rest) a = (Crash IndexError, a).
Proof.
  intros Hret Hh Hf Hshort.
  assert (Htip : forall s, fingertip (landmarks fr) s = (inl IndexError, s)).
  { intros s. unfold fingertip.
    destruct (landmarks fr !! 8%nat) as [row|] eqn:Hrow; [|reflexivity].
    destruct Hshort as [Hlen|(row1 & Hrow1 & Hlen)].
    - apply lookup_lt_Some in Hrow. lia.
    - assert (row1 = row) as -> by congruence.
      destruct (row !! 2%nat) as [y|] eqn:Hy.
      + apply lookup_lt_Some in Hy. lia.
      + destruct (row !! 1%nat); reflexivity. }
  cbn [run]. unfold loop_pass. rewrite Hret. cbn [negb].
  unfold frame_body, bind, hand_phase, get. rewrite Hh, Hf. cbn [andb].
  destruct (recognized fr) as [[g conf] st]. unfold bind. cbn beta iota.
  rewrite Htip. reflexivity.
Qed.

Lemma str_is_other (v : PyVal) (s : string) : v <> VStr s -> str_is v s = false.
Proof.
  intros Hv. destruct v; cbn; try reflexivity.
  apply String.eqb_neq. congruence.
Qed.

(** X7: No interaction, an empty one, one without a type or of a type the
    loop does not know: nothing is asked of the canvas, nothing is
    printed and nothing is raised. *)
Theorem unknown_command_ignored (fr : Frame) (a : GestureArtApp) :
  interaction fr = None
    \/ (exists d, interaction fr = Some d
          /\ (d = ∅ \/ forall s, s ∈ action_types -> d !! "type" <> Some (VStr s))) ->
  on_interaction fr a = (inr tt, a).
Proof.
  intros [Hn|(d & Hd & Hcase)]; unfold on_interaction.
  - rewrite Hn. reflexivity.
  - rewrite Hd. destruct Hcase as [->|Hty]; [rewrite decide_True by reflexivity; reflexivity|].
    case_decide; [reflexivity|].
    assert (Hs : forall s, s ∈ action_types -> str_is (py_get d "type") s = false).
    { intros s Hin. apply str_is_other. unfold py_get. intros Heq.
      apply (Hty s Hin). destruct (d !! "type"); cbn in Heq; congruence. }
    rewrite (Hs "clear"), (Hs "undo"), (Hs "redo"), (Hs "save"),
      (Hs "color_selected"), (Hs "slider_changed"), (Hs "brush_selected"),
      (Hs "brush_property_changed") by (unfold action_types; set_solver).
    reflexivity.
Qed.

(** X8: A colour pick without a colour, or a brush pick without a name,
    raises a [KeyError] that nothing catches: the session ends in this
    pass, after the UI was queried, with no further canvas call and
    with the click not consumed. *)
Theorem missing_key_ends_session (fr : Frame) (rest : list Frame) (a a1 : GestureArtApp)
    (g : GestureType.t) (p : option Point) (d : gmap string PyVal) (k : string) :
  ret fr = true ->
  hand_phase fr a = (inr (g, p), a1) ->
  interaction fr = Some d ->
  (d !! "type" = Some (VStr "color_selected") /\ k = "color")
    \/ (d !! "type" = Some (VStr "brush_selected") /\ k = "name") ->
  d !! k = None ->
  run (fr :: rest) a =
    (Crash (KeyError k),
     {| canvas := canvas a1; last_draw_state := last_draw_state a1;
        mouse_point := mouse_point a1; mouse_click := mouse_click a1;
        trace := trace a1 ++ [ev_handle_interaction p
                   (bool_decide (g = GestureType.SELECT) || mouse_click a1)] |}).
Proof.
  intros Hret Hhand Hint Hty Hk.
  cbn [run]. unfold loop_pass. rewrite Hret. cbn [negb].
  unfold frame_body, bind. rewrite Hhand.
  unfold ui_phase, bind, get, emit, on_interaction. cbn. rewrite Hint.
  assert (Hne : d <> ∅).
  { intros ->. destruct Hty as [[Hty _]|[Hty _]]; rewrite lookup_empty in Hty; discriminate. }
  rewrite decide_False by exact Hne.
  unfold py_get, bind, py_item.
  destruct Hty as [[Hty ->]|[Hty ->]]; rewrite Hty, Hk; reflexivity.
Qed.

Lemma member_lookup (ms : list (string * BrushType)) (name : string) (b : BrushType) :
  NoDup ms.*1 -> (name, b) ∈ ms -> member name ms = Some b.
Proof.
  induction ms as [|[n0 b0] ms IH]; intros Hnd Hin.
  - apply elem_of_nil in Hin. contradiction.
  - cbn in Hnd |- *. apply NoDup_cons in Hnd as [Hnotin Hnd].
    apply elem_of_cons in Hin as [Heq|Hin].
    + injection Heq as <- <-. rewrite String.eqb_refl. reflexivity.
    + destruct (String.eqb_spec n0 name) as [->|Hne].
      * exfalso. apply Hnotin. apply list_elem_of_fmap. exists (name, b). split; [reflexivity|exact Hin].
      * apply IH; assumption.
Qed.

(** X9: with distinct member names, a [brush_selected] command whose
    name [str.upper()] maps onto the name of a member asks one thing of
    the canvas, [set_brush] with that member, and prints nothing. *)
Theorem brush_selected_by_name (fr : Frame) (d : gmap string PyVal) (name : string)
    (b : BrushType) (a : GestureArtApp) :
  interaction fr = Some d ->
  d !! "type" = Some (VStr "brush_selected") ->
  d !! "name" = Some (VStr name) ->
  NoDup BrushType_members.*1 ->
  (upper name, b) ∈ BrushType_members ->
  on_interaction fr a =
    (inr tt,
     {| canvas := exec_call (call_set_brush b) (canvas a);
        last_draw_state := last_draw_state a;
        mouse_point := mouse_point a; mouse_click := mouse_click a;
        trace := trace a ++ [ev_canvas (call_set_brush b)] |}).
Proof.
  intros Hi Hty Hname Hnd Hin.
  unfold on_interaction. rewrite Hi.
  destruct (decide (d = ∅)) as [->|_]; [rewrite lookup_empty in Hty; discriminate|].
  unfold py_get. rewrite Hty. cbn.
  unfold bind, py_item. rewrite Hname. cbn.
  rewrite (member_lookup _ _ _ Hnd Hin). reflexivity.
Qed.

(** X10: a [brush_property_changed] command does one thing at most:
    nothing, one call of a numeric setter, one complaint printed with
    the canvas untouched, or, when the complaint cannot be formatted,
    the exception of [str(value)] with nothing done.  For the size,
    the setter gets what [int(value)] returns; when [int(value)]
    raises, the complaint names that exception if [str(value)]
    succeeds. *)
Theorem property_change_is_contained (fr : Frame) (d : gmap string PyVal)
    (a : GestureArtApp) :
  interaction fr = Some d ->
  d !! "type" = Some (VStr "brush_property_changed") ->
  (on_interaction fr a = (inr tt, a)
   \/ (exists e, on_interaction fr a
                 = emit (ev_print_property_error (py_get d "name") (py_get d "value") e) a)
   \/ (exists k, numeric_setter k /\ on_interaction fr a = call k a)
   \/ (exists e, str_raises (py_get d "value") = Some e
                 /\ on_interaction fr a = (inl e, a)))
  /\ (forall n, d !! "name" = Some (VStr "size") -> is_none (py_get d "value") = false ->
        py_int (py_get d "value") = inr n ->
        on_interaction fr a = call (call_set_brush_size n) a)
  /\ (forall e, d !! "name" = Some (VStr "size") -> is_none (py_get d "value") = false ->
        py_int (py_get d "value") = inl e ->
        str_raises (py_get d "value") = None ->
        on_interaction fr a
        = emit (ev_print_property_error (VStr "size") (py_get d "value") e) a).
Proof.
  intros Hi Hty.
  assert (Hrun : on_interaction fr a = change_property (py_get d "name") (py_get d "value") a).
  { unfold on_interaction. rewrite Hi.
    destruct (decide (d = ∅)) as [->|_]; [rewrite lookup_empty in Hty; discriminate|].
    unfold py_get at 1 2 3 4 5 6 7 8. rewrite Hty. reflexivity. }
  rewrite Hrun. split; [|split].
  - assert (Hg : forall k : PyExn + CanvasCall,
               (forall c, k = inr c -> numeric_setter c) ->
               guarded (py_get d "name") (py_get d "value") k a = (inr tt, a)
               \/ (exists e, guarded (py_get d "name") (py_get d "value") k a
                     = emit (ev_print_property_error (py_get d "name") (py_get d "value") e) a)
               \/ (exists c, numeric_setter c
                     /\ guarded (py_get d "name") (py_get d "value") k a = call c a)
               \/ (exists e, str_raises (py_get d "value") = Some e
                     /\ guarded (py_get d "name") (py_get d "value") k a = (inl e, a))).
    { intros [e|c] Hk; unfold guarded.
      - destruct (str_raises (py_get d "value")) as [e1|] eqn:Hs.
        + right; right; right. exists e1. split; reflexivity.
        + right; left. exists e. reflexivity.
      - right; right; left. exists c. split; [apply Hk; reflexivity | reflexivity]. }
    unfold change_property, convert.
    destruct (truthy (py_get d "name") && negb (is_none (py_get d "value")));
      [|left; reflexivity].
    destruct (str_is (py_get d "name") "size").
    { apply Hg. intros c. destruct (py_int (py_get d "value")); intros [= <-]. exact I. }
    destruct (str_is (py_get d "name") "opacity").
    { apply Hg. intros c. destruct (py_float (py_get d "value")); intros [= <-]. exact I. }
    destruct (str_is (py_get d "name") "hardness").
    { apply Hg. intros c. destruct (py_float (py_get d "value")); intros [= <-]. exact I. }
    destruct (str_is (py_get d "name") "flow").
    { apply Hg. intros c. destruct (py_float (py_get d "value")); intros [= <-]. exact I. }
    left; reflexivity.
  - intros n Hname Hnone Hint.
    assert (Hp : py_get d "name" = VStr "size") by (unfold py_get; rewrite Hname; reflexivity).
    unfold change_property. rewrite Hp, Hnone, Hint. reflexivity.
  - intros e Hname Hnone Hint Hstr.
    assert (Hp : py_get d "name" = VStr "size") by (unfold py_get; rewrite Hname; reflexivity).
    unfold change_property, guarded. rewrite Hp, Hnone, Hint. cbn. rewrite Hstr. reflexivity.
Qed.

(** *** What a pass asks of its collaborators, and in which order *)

(** X11: Lines 49-70 ask of the canvas only what the recognised gesture
    stands for: a point only for DRAW, the pen-up only for another
    gesture, and clear, undo, redo, save or a brush change only for
    that very gesture in state COMPLETED; they never set a colour or a
    brush property and never print. *)
Theorem hand_calls_match_gesture (fr : Frame) (a : GestureArtApp) :
  exists evs,
    trace (hand_phase fr a).2 = trace a ++ evs
    /\ Forall (gesture_call (recognized fr).1.1 (recognized fr).2) evs.
Proof.
  destruct (recognized fr) as [[g conf] st] eqn:Hrec. cbn [fst snd].
  assert (Hadds : adds (gesture_call g st) (hand_phase fr)).
  { unfold hand_phase. rewrite Hrec.
    apply adds_bind; [apply adds_get | intros a0].
    case_match; [|apply adds_pure].
    apply adds_bind; [unfold fingertip; adds_auto | intros p].
    apply adds_bind; [|intros ?; apply adds_pure].
    unfold on_gesture. case_decide.
    - apply adds_bind; [|intros ?; apply adds_set_last_draw_state].
      apply adds_call. cbn. assumption.
    - apply adds_bind; [|intros ?].
      + unfold pen_up. apply adds_bind; [apply adds_get | intros ?].
        case_match; [|apply adds_pure].
        apply adds_bind; [|intros ?; apply adds_set_last_draw_state].
        apply adds_call. cbn. assumption.
      + unfold dispatch_gesture, next_brush. case_decide; [|apply adds_pure].
        destruct g; adds_auto. }
  exact (Hadds a).
Qed.

Lemma ui_phase_adds_ui_events (fr : Frame) :
  adds ui_event (bind (on_interaction fr) (fun _ => consume_click)).
Proof.
  unfold on_interaction, py_item, select_brush, change_property, guarded, convert.
  adds_auto; simplify_eq; adds_auto.
Qed.

(** X12: A pass whose hand phase raises nothing queries the UI exactly
    once, after everything the gesture asked of the canvas: with the
    fingertip when a hand was found, the mouse position being
    overridden, and with the last mouse position otherwise; the click
    flag is set by a pending mouse click or by the gesture SELECT in
    any state.  What the UI command then adds contains no draw call. *)
Theorem one_query_per_pass (fr : Frame) (a a1 : GestureArtApp)
    (g : GestureType.t) (p : option Point) :
  hand_phase fr a = (inr (g, p), a1) ->
  (exists evs,
     trace (frame_body fr a).2
       = trace a1 ++ ev_handle_interaction p
                       (bool_decide (g = GestureType.SELECT) || mouse_click a1) :: evs
     /\ Forall ui_event evs)
  /\ (hands_detected fr && found fr = false ->
      g = GestureType.NONE /\ p = mouse_point a /\ a1 = a)
  /\ (hands_detected fr && found fr = true ->
      g = (recognized fr).1.1
      /\ exists row x y, landmarks fr !! 8%nat = Some row /\ row !! 1%nat = Some x
           /\ row !! 2%nat = Some y /\ p = Some (x, y)).
Proof.
  intros Hhand. split; [|split].
  - unfold frame_body, bind at 1. rewrite Hhand. cbn [fst snd].
    unfold ui_phase, bind at 1 2, get, emit. cbn [fst snd].
    match goal with |- context [bind (on_interaction fr) ?k ?s] =>
      destruct (ui_phase_adds_ui_events fr s) as (evs & Ht & Hp) end.
    exists evs. split; [|exact Hp].
    rewrite Ht. cbn [trace]. rewrite <- app_assoc. reflexivity.
  - intros Hno. unfold hand_phase, bind, get in Hhand. rewrite Hno in Hhand.
    cbn in Hhand. injection Hhand as <- <- <-. repeat split.
  - intros Hyes. unfold hand_phase, bind at 1, get in Hhand. rewrite Hyes in Hhand.
    destruct (recognized fr) as [[g0 conf] st]. cbn [fst snd] in *.
    unfold fingertip in Hhand.
    destruct (landmarks fr !! 8%nat) as [row|] eqn:Hrow; [|discriminate].
    destruct (row !! 1%nat) as [x|] eqn:Hx; [|discriminate].
    destruct (row !! 2%nat) as [y|] eqn:Hy; [|discriminate].
    rewrite bind_pure_l in Hhand. unfold bind in Hhand.
    destruct (on_gesture g0 st (x, y) a) as [[e|[]] a2]; [discriminate|].
    injection Hhand as <- <- <-. split; [reflexivity|].
    exists row, x, y. repeat split; assumption.
Qed.

Lemma member_in (ms : list (string * BrushType)) (name : string) (b : BrushType) :
  member name ms = Some b -> b ∈ ms.*2.
Proof.
  induction ms as [|[n0 b0] ms IH]; cbn; [discriminate|].
  destruct (String.eqb n0 name).
  - intros [= ->]. apply elem_of_cons. left. reflexivity.
  - intros Hm. apply elem_of_cons. right. exact (IH Hm).
Qed.

(** X13: Whatever a pass does, the brush it hands to [set_brush] is a member
    of [list(BrushType)], be it the next brush of a TOOL_CHANGE or the
    brush picked by name in the UI. *)
Theorem set_brush_calls_are_members (fr : Frame) (a : GestureArtApp) :
  exists evs,
    trace (frame_body fr a).2 = trace a ++ evs
    /\ forall b, ev_canvas (call_set_brush b) ∈ evs -> b ∈ brushes.
Proof.
  assert (Hadds : adds enumerated_brush (frame_body fr)).
  { unfold frame_body, hand_phase, fingertip, on_gesture, pen_up, dispatch_gesture,
      next_brush, ui_phase, on_interaction, py_item, select_brush, change_property,
      guarded, convert.
    adds_auto; simplify_eq; adds_auto; apply adds_call; cbn.
    - eapply list_elem_of_lookup_2; eassumption.
    - eapply member_in; eassumption. }
  destruct (Hadds a) as (evs & Ht & Hp). exists evs. split; [exact Ht|].
  intros b Hin. rewrite Forall_forall in Hp. exact (Hp _ Hin).
Qed.

(** *** What the loop keeps from pass to pass *)

Lemma flag_emit (b : bool) (e : Event) : keeps (fun s => last_draw_state s = b) (emit e).
Proof. intros a Ha. exact Ha. Qed.

Lemma flag_call (b : bool) (k : CanvasCall) : keeps (fun s => last_draw_state s = b) (call k).
Proof. intros a Ha. exact Ha. Qed.

Lemma flag_consume_click (b : bool) : keeps (fun s => last_draw_state s = b) consume_click.
Proof. intros a Ha. exact Ha. Qed.

Ltac flag_auto :=
  repeat first [ apply keeps_pure | apply keeps_raise | apply keeps_get
               | apply flag_emit | apply flag_call | apply flag_consume_click
               | apply keeps_bind; [|intros ?]
               | case_match | case_decide ].

Lemma flag_dispatch_gesture (b : bool) g st :
  keeps (fun s => last_draw_state s = b) (dispatch_gesture g st).
Proof. unfold dispatch_gesture, next_brush. flag_auto. Qed.

Lemma flag_ui_phase (b : bool) (fr : Frame) g p :
  keeps (fun s => last_draw_state s = b) (ui_phase fr g p).
Proof.
  unfold ui_phase, on_interaction, py_item, select_brush, change_property, guarded, convert.
  flag_auto; simplify_eq; flag_auto.
Qed.

Lemma fingertip_state (lm : Landmarks) (a : GestureArtApp) : (fingertip lm a).2 = a.
Proof. unfold fingertip. repeat case_match; reflexivity. Qed.

(** X14: After a pass that raises nothing, [last_draw_state] tells whether
    the frame was recognised as DRAW if a hand was found, and is what
    it was if none was: neither the command of a gesture nor the UI
    nor the mouse changes it. *)
Theorem flag_tracks_draw (fr : Frame) (a : GestureArtApp) :
  ret fr = true ->
  (frame_body fr a).1 = inr tt ->
  last_draw_state (loop_pass fr a).2
  = if hands_detected fr && found fr
    then bool_decide ((recognized fr).1.1 = GestureType.DRAW)
    else last_draw_state a.
Proof.
  intros Hret Hok.
  assert (Hbody : last_draw_state (frame_body fr a).2
                  = if hands_detected fr && found fr
                    then bool_decide ((recognized fr).1.1 = GestureType.DRAW)
                    else last_draw_state a).
  { revert Hok. unfold frame_body, bind.
    destruct (hand_phase fr a) as [[e|[g p]] a1] eqn:Hhand; [discriminate|].
    intros _. cbn [fst snd].
    rewrite (flag_ui_phase (last_draw_state a1) fr g p a1 eq_refl).
    revert Hhand. unfold hand_phase, bind at 1, get.
    destruct (hands_detected fr && found fr); [|intros [= _ _ <-]; reflexivity].
    destruct (recognized fr) as [[g0 conf] st]. cbn [fst snd].
    unfold bind at 1.
    pose proof (fingertip_state (landmarks fr) a) as Htip.
    destruct (fingertip (landmarks fr) a) as [[e|pt] a0]; [discriminate|].
    cbn in Htip. subst a0. unfold bind at 1.
    destruct (on_gesture g0 st pt a) as [[e|[]] a2] eqn:Hg; [discriminate|].
    intros [= _ _ <-].
    destruct (decide (g0 = GestureType.DRAW)) as [->|Hnd].
    - rewrite bool_decide_eq_true_2 by reflexivity.
      unfold on_gesture in Hg. rewrite decide_True in Hg by reflexivity.
      injection Hg as <-. reflexivity.
    - rewrite bool_decide_eq_false_2 by exact Hnd.
      rewrite (on_gesture_not_draw a g0 st pt Hnd) in Hg.
      pose proof (flag_dispatch_gesture false g0 st (pen_up a).2) as Hd.
      rewrite Hg in Hd. apply Hd. rewrite pen_up_run. cbn.
      destruct (last_draw_state a) eqn:Hl; [reflexivity | exact Hl]. }
  unfold loop_pass. rewrite Hret. cbn [negb].
  destruct (frame_body fr a) as [[e|[]] a1]; [discriminate|]. cbn [snd] in Hbody.
  destruct (wait_key_canvas fr a1) as (_ & _ & Hl).
  destruct (quit_key (key fr)); cbn [snd]; rewrite Hl; exact Hbody.
Qed.

Lemma exec_call_brush_type (k : CanvasCall) (c : CanvasEngine) :
  match k with call_set_brush _ => False | _ => True end ->
  brush_type (brush (exec_call k c)) = brush_type (brush c).
Proof.
  intros Hk. destruct k as [[[x y]|] pr d| | | | | |v| | | |]; cbn in Hk |- *;
    try contradiction; try reflexivity.
  - unfold draw. destruct (default true d); [|cbn; rewrite seal_brush; reflexivity].
    destruct (active_stroke c); reflexivity.
  - rewrite seal_brush. reflexivity.
  - unfold undo. repeat case_match; reflexivity.
  - unfold redo. repeat case_match; reflexivity.
  - destruct v; reflexivity.
Qed.

Lemma enumerated_call (k : CanvasCall) :
  enumerated_brush (ev_canvas k) ->
  keeps (fun s => brush_type (brush (canvas s)) ∈ brushes) (call k).
Proof.
  intros Hk a Ha. cbn.
  destruct k; try (rewrite exec_call_brush_type by exact I; exact Ha).
  exact Hk.
Qed.

Lemma enumerated_frame_body (fr : Frame) :
  keeps (fun s => brush_type (brush (canvas s)) ∈ brushes) (frame_body fr).
Proof.
  unfold frame_body, hand_phase, fingertip, on_gesture, pen_up, dispatch_gesture,
    next_brush, ui_phase, on_interaction, py_item, select_brush, change_property,
    guarded, convert.
  repeat first [ apply keeps_pure | apply keeps_raise | apply keeps_get
               | apply keeps_bind; [|intros ?]
               | (intros s Hs; exact Hs)
               | apply enumerated_call; cbn; solve [auto]
               | case_match | case_decide ];
    simplify_eq;
    repeat first [ apply keeps_pure | apply keeps_raise
                 | (intros s Hs; exact Hs)
                 | apply enumerated_call; cbn; solve [auto] ];
    apply enumerated_call; cbn.
  - eapply list_elem_of_lookup_2; eassumption.
  - eapply member_in; eassumption.
Qed.

Lemma index_elem {A} `{EqDecision A} (l : list A) (x : A) :
  x ∈ l -> exists i, index l x = Some i /\ (i < length l)%nat.
Proof.
  induction l as [|y l IH]; intros Hin; [apply elem_of_nil in Hin; contradiction|].
  cbn. destruct (decide (y = x)) as [->|Hne].
  - exists 0%nat. split; [reflexivity | lia].
  - apply elem_of_cons in Hin as [->|Hin]; [contradiction|].
    destruct (IH Hin) as (i & Hi & Hlt). exists (S i). rewrite Hi. split; [reflexivity | lia].
Qed.

(** X15: If the engine starts with a brush of the enumeration, its brush is
    one of the enumeration whenever a pass begins, so the
    [brushes.index] of a TOOL_CHANGE finds it: lines 66-70 raise
    nothing. *)
Theorem tool_change_never_raises (a : GestureArtApp) (p : Point) :
  brush_type initial_brush ∈ brushes ->
  reachable a ->
  brush_type (brush (canvas a)) ∈ brushes
  /\ (on_gesture GestureType.TOOL_CHANGE GestureState.COMPLETED p a).1 = inr tt.
Proof.
  intros Hinit Hreach.
  assert (Hin : brush_type (brush (canvas a)) ∈ brushes).
  { induction Hreach as [w h|fr a a1 Hreach IH Hpass]; [exact Hinit|].
    unfold loop_pass in Hpass.
    destruct (ret fr); cbn in Hpass; [|discriminate].
    pose proof (enumerated_frame_body fr a IH) as Hbody.
    destruct (frame_body fr a) as [[e|[]] a2]; [discriminate|].
    destruct (quit_key (key fr)); [discriminate|].
    injection Hpass as <-.
    destruct (wait_key_canvas fr a2) as (Hc & _ & _). rewrite Hc. exact Hbody. }
  split; [exact Hin|].
  rewrite on_gesture_not_draw by discriminate.
  unfold dispatch_gesture. rewrite decide_True by reflexivity.
  unfold next_brush, bind, get. rewrite pen_up_brush.
  destruct (index_elem brushes _ Hin) as (i & Hi & Hlt). rewrite Hi.
  destruct (lookup_lt_is_Some_2 brushes ((i + 1) mod length brushes)%nat) as [b Hb].
  { apply Nat.mod_upper_bound. lia. }
  rewrite Hb. reflexivity.
Qed.

End AppFacts.

(** ** The properties at work in the studio *)

(** C1: at the start of the history [undo()] does nothing while
    [redo()] still has the undone stroke to put back, so the pair
    changes the raster. *)
Lemma undo_redo_at_history_start :
  cursor (undo Studio.one_stroke) = 0%nat
  /\ raster (redo (undo (undo Studio.one_stroke))) <> raster (undo Studio.one_stroke).
Proof. split; [reflexivity|]. vm_compute. intros [=]. Qed.

Lemma undo_redo_restores_raster_witness :
  (cursor Studio.one_stroke <> 0%nat \/ history Studio.one_stroke = [])
  /\ raster (Nat.iter 3 (fun s => redo (undo s)) Studio.one_stroke) = raster Studio.one_stroke.
Proof.
  assert (Hc : cursor Studio.one_stroke <> 0%nat \/ history Studio.one_stroke = [])
    by (left; vm_compute; lia).
  split; [exact Hc|].
  exact (proj1 (proj2 (undo_redo_restores_raster Studio.one_stroke 3 Hc))).
Defined.

Lemma edit_after_undo_discards_redo_witness :
  active_stroke (draw (Some (1, 0)) 1 true (Nat.iter 1 undo Studio.one_stroke))
    = Some {| base := blank 2 1 (255, 255, 255); points := [(1, 0, 1%Q)] |}
  /\ Nat.iter 2 redo
       (draw None 1 true (draw (Some (1, 0)) 1 true (Nat.iter 1 undo Studio.one_stroke)))
     = draw None 1 true (draw (Some (1, 0)) 1 true (Nat.iter 1 undo Studio.one_stroke)).
Proof.
  assert (Ha : active_stroke (draw (Some (1, 0)) 1 true (Nat.iter 1 undo Studio.one_stroke))
               = Some {| base := blank 2 1 (255, 255, 255); points := [(1, 0, 1%Q)] |})
    by reflexivity.
  split; [exact Ha|].
  exact (proj2 (proj2 (edit_after_undo_discards_redo
                         (draw (Some (1, 0)) 1 true (Nat.iter 1 undo Studio.one_stroke)) 0 2)
                      _ 1%Q true Ha)).
Defined.

Lemma held_pose_completes_once_witness :
  report_state <$> (recognize_stream (new_recognizer (3 # 4) 3)
                      (replicate 4 (Studio.hand 0 0, Studio.fist))).2
    = [GestureState.IN_PROGRESS; GestureState.IN_PROGRESS;
       GestureState.COMPLETED; GestureState.NONE]
  /\ completions GestureType.CLEAR
       (recognize_stream (new_recognizer (3 # 4) 3)
          (replicate 4 (Studio.hand 0 0, Studio.fist))).2 = 1%nat.
Proof.
  assert (Hn : GestureType.CLEAR <> GestureType.NONE) by discriminate.
  assert (Hd : GestureType.CLEAR <> GestureType.DRAW) by discriminate.
  assert (Hw : (0 < debounce_window (new_recognizer (3 # 4) 3))%nat) by (cbn; lia).
  assert (Hs : run_start GestureType.CLEAR (new_recognizer (3 # 4) 3))
    by (split; [discriminate | reflexivity]).
  assert (Hall : Forall (fun fr => (classify (new_recognizer (3 # 4) 3) fr.1 fr.2).1
                                   = GestureType.CLEAR)
                        (replicate 4 (Studio.hand 0 0, Studio.fist)))
    by (repeat constructor).
  assert (Hlen : (debounce_window (new_recognizer (3 # 4) 3)
                  <= length (replicate 4 (Studio.hand 0 0, Studio.fist)))%nat) by (cbn; lia).
  pose proof (held_pose_completes_once GestureType.CLEAR
                (replicate 4 (Studio.hand 0 0, Studio.fist))
                (new_recognizer (3 # 4) 3) Hn Hd Hw Hs Hall Hlen) as [Hstates [Hone _]].
  split; [exact Hstates | exact Hone].
Defined.

Lemma draw_reports_in_progress_witness :
  Forall (fun fr => matches (new_recognizer (3 # 4) 3) GestureType.DRAW fr.1 fr.2 = true)
         (replicate 5 (Studio.hand 3 4, Studio.pointing))
  /\ (recognize_stream (new_recognizer (3 # 4) 3)
        (replicate 5 (Studio.hand 3 4, Studio.pointing))).2
     = replicate 5 (GestureType.DRAW, 9 # 10, GestureState.IN_PROGRESS).
Proof.
  assert (Hall : Forall (fun fr => matches (new_recognizer (3 # 4) 3) GestureType.DRAW
                                     fr.1 fr.2 = true)
                        (replicate 5 (Studio.hand 3 4, Studio.pointing)))
    by (repeat constructor).
  split; [exact Hall|].
  exact (proj1 (proj2 (draw_reports_in_progress (new_recognizer (3 # 4) 3)
                         (replicate 5 (Studio.hand 3 4, Studio.pointing)) Hall))).
Defined.

Lemma setters_clamp_witness :
  0 < min_brush_size <= max_brush_size
  /\ brush_size (brush (set_brush_size (-5) (new_canvas 2 1 (255, 255, 255)))) = 1
  /\ opacity (brush (set_opacity (37 # 10) (new_canvas 2 1 (255, 255, 255)))) = 1%Q.
Proof.
  assert (Hr : 0 < min_brush_size <= max_brush_size) by (cbn; lia).
  split; [exact Hr|].
  exact (proj2 (proj2 (proj2 (proj2 (proj2 (proj2
           (setters_clamp (new_canvas 2 1 (255, 255, 255)) Hr))))))).
Defined.

(** C6: a session quit during a DRAW frame ends with the stroke still
    active and nothing in the history; the one canvas call of the run
    is the draw of that frame. *)
Lemma quit_leaves_stroke_unsealed :
  Studio.quit_while_drawing.1 = Quit
  /\ active_stroke (canvas Studio.quit_while_drawing.2)
     = Some {| base := blank 2 1 (255, 255, 255); points := [(0, 0, 1%Q)] |}
  /\ history (canvas Studio.quit_while_drawing.2) = []
  /\ trace Studio.quit_while_drawing.2
     = [ev_canvas (call_draw (Some (0, 0)) (Some 1%Q) (Some true));
        ev_handle_interaction (Some (0, 0)) false].
Proof. vm_compute. repeat split. Qed.

Lemma quit_leaves_canvas_as_is_witness :
  quit_key 113 = true
  /\ active_stroke
       (canvas (run [Studio.gesture_frame GestureType.DRAW GestureState.IN_PROGRESS 0 0 113]
                    (new_app 2 1)).2)
     = active_stroke
         (canvas (frame_body
                    (Studio.gesture_frame GestureType.DRAW GestureState.IN_PROGRESS 0 0 113)
                    (new_app 2 1)).2).
Proof.
  split; [reflexivity|].
  exact (proj1 (proj2 (proj2
    (quit_leaves_canvas_as_is
       (Studio.gesture_frame GestureType.DRAW GestureState.IN_PROGRESS 0 0 113) []
       (new_app 2 1)
       (frame_body (Studio.gesture_frame GestureType.DRAW GestureState.IN_PROGRESS 0 0 113)
                   (new_app 2 1)).2
       eq_refl eq_refl eq_refl)))).
Defined.

Lemma unknown_brush_name_ignored_witness :
  member (upper "crayon") BrushType_members = None
  /\ on_interaction (Studio.ui_frame Studio.crayon_request) (new_app 2 1)
     = (inr tt,
        {| canvas := new_canvas 2 1 (255, 255, 255); last_draw_state := false;
           mouse_point := None; mouse_click := false;
           trace := [ev_print "Invalid brush name: crayon"] |}).
Proof.
  split; [reflexivity|].
  exact (proj1 (unknown_brush_name_ignored (Studio.ui_frame Studio.crayon_request)
                  Studio.crayon_request "crayon" (new_app 2 1)
                  eq_refl eq_refl eq_refl eq_refl)).
Defined.

Lemma gesture_command_after_pen_up_witness :
  last_draw_state Studio.drawing = true
  /\ active_stroke (canvas Studio.drawing) <> None
  /\ active_stroke (canvas (pen_up Studio.drawing).2) = None
  /\ on_gesture GestureType.CLEAR GestureState.COMPLETED (0, 0) Studio.drawing
     = dispatch_gesture GestureType.CLEAR GestureState.COMPLETED (pen_up Studio.drawing).2.
Proof.
  assert (Hr : reachable Studio.drawing).
  { apply (reach_pass
             (Studio.gesture_frame GestureType.DRAW GestureState.IN_PROGRESS 0 0 (-1))
             (new_app 2 1) Studio.drawing (reach_start 2 1)).
    reflexivity. }
  assert (Hg : GestureType.CLEAR <> GestureType.DRAW) by discriminate.
  pose proof (gesture_command_after_pen_up Studio.drawing GestureType.CLEAR
                GestureState.COMPLETED (0, 0) Hr Hg) as (Hrun & Hnone & _).
  split; [reflexivity|]. split; [vm_compute; discriminate|].
  split; [exact Hnone | exact Hrun].
Defined.

Lemma tool_change_cycles_witness :
  NoDup brushes
  /\ brush_type (brush (canvas (Nat.iter 3 tool_change (new_app 2 1)))) = Studio.ERASER
  /\ brush_type (brush (canvas (Nat.iter 4 tool_change (new_app 2 1)))) = Studio.PENCIL.
Proof.
  assert (Hnd : NoDup brushes).
  { repeat (constructor; [intros Hin; repeat (apply elem_of_cons in Hin as [Hin|Hin];
                                              [discriminate|]);
                          apply elem_of_nil in Hin; exact Hin|]).
    constructor. }
  assert (Hi : brushes !! 0%nat = Some (brush_type (brush (canvas (new_app 2 1)))))
    by reflexivity.
  pose proof (tool_change_cycles (new_app 2 1) 0 (0, 0) Hnd Hi) as (_ & Hk & _).
  split; [exact Hnd|].
  split.
  - assert (H3 : Some Studio.ERASER
                  = Some (brush_type (brush (canvas (Nat.iter 3 tool_change (new_app 2 1))))))
      by exact (Hk 3%nat).
    apply (inj Some). symmetry. exact H3.
  - assert (H4 : Some Studio.PENCIL
                  = Some (brush_type (brush (canvas (Nat.iter 4 tool_change (new_app 2 1))))))
      by exact (Hk 4%nat).
    apply (inj Some). symmetry. exact H4.
Defined.

Lemma draw_calls_use_fingertip_at_full_pressure_witness :
  hand_phase (Studio.gesture_frame GestureType.DRAW GestureState.IN_PROGRESS 7 9 (-1))
             (new_app 10 10)
  = (inr (GestureType.DRAW, Some (7, 9)),
     {| canvas := draw (Some (7, 9)) 1 true (canvas (new_app 10 10));
        last_draw_state := true; mouse_point := None; mouse_click := false;
        trace := [ev_canvas (call_draw (Some (7, 9)) (Some 1%Q) (Some true))] |}).
Proof.
  exact (proj1 (proj2 (draw_calls_use_fingertip_at_full_pressure
                  (Studio.gesture_frame GestureType.DRAW GestureState.IN_PROGRESS 7 9 (-1))
                  (new_app 10 10)))
               (9 # 10) GestureState.IN_PROGRESS [8; 7; 9] 7 9
               eq_refl eq_refl eq_refl eq_refl eq_refl eq_refl).
Defined.

(** ** The loop at work in the studio *)

Lemma click_lives_one_pass_witness :
  ret Studio.away = true
  /\ (frame_body Studio.away (new_app 2 1)).1 = inr tt
  /\ mouse_click (loop_pass Studio.away (new_app 2 1)).2 = true.
Proof.
  split; [reflexivity|]. split; [reflexivity|].
  exact (proj2 (click_lives_one_pass Studio.away (new_app 2 1) eq_refl eq_refl)).
Defined.

Lemma hand_away_keeps_stroke_open_witness :
  Forall hand_away [Studio.away; Studio.away]
  /\ exists a1,
       run ([Studio.away; Studio.away] ++ []) Studio.drawing = run [] a1
       /\ canvas a1 = canvas Studio.drawing
       /\ last_draw_state a1 = last_draw_state Studio.drawing
       /\ exists evs, trace a1 = trace Studio.drawing ++ evs /\ Forall is_query evs
                      /\ length evs = length [Studio.away; Studio.away].
Proof.
  assert (Hall : Forall hand_away [Studio.away; Studio.away])
    by (repeat constructor).
  split; [exact Hall|].
  exact (hand_away_keeps_stroke_open [Studio.away; Studio.away] [] Studio.drawing Hall).
Defined.

Lemma short_landmarks_end_session_witness :
  (length (landmarks Studio.short_hand) <= 8)%nat
  /\ run [Studio.short_hand] (new_app 2 1) = (Crash IndexError, new_app 2 1).
Proof.
  assert (Hlen : (length (landmarks Studio.short_hand) <= 8)%nat) by (cbn; lia).
  split; [exact Hlen|].
  exact (short_landmarks_end_session Studio.short_hand [] (new_app 2 1)
           eq_refl eq_refl eq_refl (or_introl Hlen)).
Defined.

Lemma unknown_command_ignored_witness :
  (forall s, s ∈ action_types -> Studio.zoom_request !! "type" <> Some (VStr s))
  /\ on_interaction (Studio.ui_frame Studio.zoom_request) (new_app 2 1)
     = (inr tt, new_app 2 1).
Proof.
  assert (Hty : forall s, s ∈ action_types -> Studio.zoom_request !! "type" <> Some (VStr s)).
  { intros s Hin Heq.
    assert (Hs : s = "zoom") by (vm_compute in Heq; congruence).
    subst s. unfold action_types in Hin.
    repeat (apply elem_of_cons in Hin as [Hin|Hin]; [discriminate|]).
    apply elem_of_nil in Hin. exact Hin. }
  split; [exact Hty|].
  apply (unknown_command_ignored (Studio.ui_frame Studio.zoom_request) (new_app 2 1)).
  right. exists Studio.zoom_request. split; [reflexivity|]. right. exact Hty.
Defined.

Lemma missing_key_ends_session_witness :
  Studio.colour_lost !! "color" = None
  /\ run [Studio.ui_frame Studio.colour_lost] (new_app 2 1)
     = (Crash (KeyError "color"),
        {| canvas := new_canvas 2 1 (255, 255, 255); last_draw_state := false;
           mouse_point := None; mouse_click := false;
           trace := [ev_handle_interaction None false] |}).
Proof.
  split; [reflexivity|].
  exact (missing_key_ends_session (Studio.ui_frame Studio.colour_lost) [] (new_app 2 1)
           (new_app 2 1) GestureType.NONE None Studio.colour_lost "color"
           eq_refl eq_refl eq_refl (or_introl (conj eq_refl eq_refl)) eq_refl).
Defined.

Lemma brush_selected_by_name_witness :
  NoDup BrushType_members.*1
  /\ (upper "Marker", Studio.MARKER) ∈ BrushType_members
  /\ brush_type (brush (canvas
       (on_interaction (Studio.ui_frame Studio.pencil_request) (new_app 2 1)).2))
     = Studio.MARKER.
Proof.
  assert (Hnd : NoDup BrushType_members.*1).
  { repeat (constructor; [intros Hin; repeat (apply elem_of_cons in Hin as [Hin|Hin];
                                              [discriminate|]);
                          apply elem_of_nil in Hin; exact Hin|]).
    constructor. }
  assert (Hin : (upper "Marker", Studio.MARKER) ∈ BrushType_members).
  { apply elem_of_cons. right. apply elem_of_cons. left. reflexivity. }
  split; [exact Hnd|]. split; [exact Hin|].
  rewrite (@brush_selected_by_name Studio.enum Studio.rasterizer Studio.builtins
             (Studio.ui_frame Studio.pencil_request)
             Studio.pencil_request "Marker" Studio.MARKER (new_app 2 1)
             eq_refl eq_refl eq_refl Hnd Hin).
  reflexivity.
Defined.

Lemma property_change_is_contained_witness :
  is_none (py_get Studio.size_as_float "value") = false
  /\ py_int (py_get Studio.size_as_float "value") = inr (-7)
  /\ on_interaction (Studio.ui_frame Studio.size_as_float) (new_app 2 1)
     = call (call_set_brush_size (-7)) (new_app 2 1).
Proof.
  split; [reflexivity|]. split; [reflexivity|].
  exact (proj1 (proj2 (property_change_is_contained (Studio.ui_frame Studio.size_as_float)
                         Studio.size_as_float (new_app 2 1) eq_refl eq_refl))
               (-7) eq_refl eq_refl eq_refl).
Defined.

Lemma one_query_per_pass_witness :
  hand_phase (Studio.gesture_frame GestureType.SELECT GestureState.NONE 7 9 (-1))
             (new_app 10 10)
    = (inr (GestureType.SELECT, Some (7, 9)), new_app 10 10)
  /\ exists evs,
       trace (frame_body (Studio.gesture_frame GestureType.SELECT GestureState.NONE 7 9 (-1))
                         (new_app 10 10)).2
         = trace (new_app 10 10)
             ++ ev_handle_interaction (Some (7, 9))
                  (bool_decide (GestureType.SELECT = GestureType.SELECT)
                   || mouse_click (new_app 10 10)) :: evs
       /\ Forall ui_event evs.
Proof.
  split; [reflexivity|].
  exact (proj1 (one_query_per_pass
                  (Studio.gesture_frame GestureType.SELECT GestureState.NONE 7 9 (-1))
                  (new_app 10 10) (new_app 10 10) GestureType.SELECT (Some (7, 9)) eq_refl)).
Defined.

Lemma flag_tracks_draw_witness :
  (frame_body (Studio.gesture_frame GestureType.DRAW GestureState.IN_PROGRESS 0 0 (-1))
              (new_app 2 1)).1 = inr tt
  /\ last_draw_state
       (loop_pass (Studio.gesture_frame GestureType.DRAW GestureState.IN_PROGRESS 0 0 (-1))
                  (new_app 2 1)).2 = true.
Proof.
  split; [reflexivity|].
  exact (flag_tracks_draw (Studio.gesture_frame GestureType.DRAW GestureState.IN_PROGRESS 0 0 (-1))
           (new_app 2 1) eq_refl eq_refl).
Defined.

Lemma tool_change_never_raises_witness :
  brush_type initial_brush ∈ brushes
  /\ reachable Studio.drawing
  /\ (on_gesture GestureType.TOOL_CHANGE GestureState.COMPLETED (0, 0) Studio.drawing).1
     = inr tt.
Proof.
  assert (Hinit : brush_type initial_brush ∈ brushes)
    by (apply elem_of_cons; left; reflexivity).
  assert (Hr : reachable Studio.drawing).
  { apply (reach_pass
             (Studio.gesture_frame GestureType.DRAW GestureState.IN_PROGRESS 0 0 (-1))
             (new_app 2 1) Studio.drawing (reach_start 2 1)).
    reflexivity. }
  split; [exact Hinit|]. split; [exact Hr|].
  exact (proj2 (tool_change_never_raises Studio.drawing (0, 0) Hinit Hr)).
Defined.
